(** * Birthday Wisher: the template-driven compositing pipeline

    A shallow embedding of [render.py] (configuration resolution, the
    compositing planner and the single encode pass), of the canvas probe of
    [intro_generator.py] / [outro_generator.py], of the three-part
    concatenation and of [render_video] in [app.py].

    Python values are an inductive type, exceptions are data, and the
    effectful code runs in a state-and-exception monad over an explicit
    file system, the list of launched external commands and the printed
    lines.  Builtins of the Python runtime that the repository calls but
    does not define (JSON parsing, [repr], [shlex.quote], [pathlib]) are
    fields of a [runtime] record; the external tools are oracles of a
    [world] record. *)

From Stdlib Require Import ZArith String Ascii List Bool Lia.
From Stdlib Require Import DecimalString.
From Stdlib Require Import Floats.PrimFloat Floats.SpecFloat Floats.FloatOps.
From stdpp Require Import base option gmap strings.

Set Warnings "-inexact-float,-register-all".
Local Open Scope Z_scope.

(** ** Python values and exceptions *)

(** What [json.load] / [json.loads] returns.  A JSON object is kept as the
    association list of its members; [dict_lookup] reads the first binding
    of a key. *)
Inductive json : Type :=
| JNull
| JBool (b : bool)
| JInt (z : Z)
| JFloat (f : float)
| JStr (s : string)
| JArr (l : list json)
| JObj (kv : list (string * json)).

(** The exception classes the modelled code can meet.  [SystemExit] is the
    only one that is not a subclass of [Exception]. *)
Inductive exn : Type :=
| SystemExit (msg : string)
| SystemExitCode (code : Z)
| KeyError (key : string)
| TypeError
| AttributeError
| ValueError
| IndexError
| OverflowError
| FileNotFoundError
| JSONDecodeError
| CalledProcessError (returncode : Z)
| RuntimeError (msg : string)
| Exception (msg : string)
| OtherError (msg : string).

Definition is_Exception (e : exn) : bool :=
  match e with
  | SystemExit _ | SystemExitCode _ => false
  | _ => true
  end.

Inductive outcome (A : Type) : Type :=
| Return (a : A)
| Raise (e : exn).
Arguments Return {A} a.
Arguments Raise {A} e.

Global Instance outcome_ret : MRet outcome := fun A a => Return a.
Global Instance outcome_bind : MBind outcome := fun A B f m =>
  match m with
  | Return a => f a
  | Raise e => Raise e
  end.
Global Instance outcome_fmap : FMap outcome := fun A B f m =>
  match m with
  | Return a => Return (f a)
  | Raise e => Raise e
  end.

(** ** Strings *)

(** The double quote character, for the shell command lines. *)
Definition dq : string := String (ascii_of_nat 34) EmptyString.

(** [str(n)] / [f"{n}"] for a Python int. *)
Definition str_int (z : Z) : string := NilZero.string_of_int (Z.to_int z).

(** [str.lower] on the ASCII range; bytes above 127 are left as they are. *)
Definition ascii_lower (c : ascii) : ascii :=
  let n := nat_of_ascii c in
  if (Nat.leb 65 n && Nat.leb n 90)%bool then ascii_of_nat (n + 32) else c.

(** [s.lower()], byte by byte: Python's result on ASCII text; a cased
    letter outside the ASCII range, which Python would also lower-case, is
    left as written. *)
Fixpoint lower (s : string) : string :=
  match s with
  | EmptyString => EmptyString
  | String c s' => String (ascii_lower c) (lower s')
  end.

(** [s.replace(c, empty)]: every occurrence of the character [c] is dropped. *)
Fixpoint remove_char (c : ascii) (s : string) : string :=
  match s with
  | EmptyString => EmptyString
  | String d s' =>
      if Ascii.eqb c d then remove_char c s' else String d (remove_char c s')
  end.


(** ** Dictionaries and the builtins [int], [float], [str], [bool] *)

Fixpoint dict_lookup (k : string) (kv : list (string * json)) : option json :=
  match kv with
  | [] => None
  | (k', v) :: kv' => if String.eqb k k' then Some v else dict_lookup k kv'
  end.

(** [d.get(k, dflt)]: only a dict has the method. *)
Definition py_get (d : json) (k : string) (dflt : json) : outcome json :=
  match d with
  | JObj kv => Return (default dflt (dict_lookup k kv))
  | _ => Raise AttributeError
  end.

(** [d[k]] for a string key [k]. *)
Definition py_item (d : json) (k : string) : outcome json :=
  match d with
  | JObj kv =>
      match dict_lookup k kv with
      | Some v => Return v
      | None => Raise (KeyError k)
      end
  | _ => Raise TypeError
  end.

(** Truth value of an object, as [if x] and [not x] use it. *)
Definition truthy (v : json) : bool :=
  match v with
  | JNull => false
  | JBool b => b
  | JInt z => negb (z =? 0)
  | JFloat f => negb (PrimFloat.eqb f 0%float)
  | JStr s => negb (String.eqb s EmptyString)
  | JArr l => match l with [] => false | _ => true end
  | JObj kv => match kv with [] => false | _ => true end
  end.

(** The builtins of the runtime that the repository calls and does not
    define. *)
Record runtime : Type := {
  json_loads : string -> option json;      (* None: JSONDecodeError *)
  int_of_str : string -> option Z;         (* int("...") *)
  float_of_str : string -> option float;   (* float("...") *)
  py_repr : json -> string;                (* repr of floats and containers *)
  shlex_quote : string -> string;
  Path : string -> string;                 (* str(Path(s)) *)
  joinpath : string -> string -> string;   (* str(p / name) *)
  parent : string -> string;               (* str(p.parent) *)
  absolute : string -> string;             (* str(p.absolute()) *)
}.

(** Truncation of a binary64 value towards zero. *)
Definition trunc_float (f : float) : outcome Z :=
  match Prim2SF f with
  | S754_zero _ => Return 0
  | S754_finite s m e =>
      let a := if 0 <=? e then Z.pos m * 2 ^ e else Z.pos m / 2 ^ (- e) in
      Return (if s then - a else a)
  | S754_infinity _ => Raise OverflowError
  | S754_nan => Raise ValueError
  end.

(** Nearest binary64 value of an integer. *)
Definition float_of_Z (z : Z) : outcome float :=
  match binary_normalize 53 1024 z 0 false with
  | S754_infinity _ => Raise OverflowError
  | sf => Return (SF2Prim sf)
  end.

Section Builtins.
Variable rt : runtime.

Definition py_int (v : json) : outcome Z :=
  match v with
  | JInt z => Return z
  | JBool b => Return (if b then 1 else 0)
  | JFloat f => trunc_float f
  | JStr s =>
      match int_of_str rt s with
      | Some z => Return z
      | None => Raise ValueError
      end
  | _ => Raise TypeError
  end.

Definition py_float (v : json) : outcome float :=
  match v with
  | JFloat f => Return f
  | JInt z => float_of_Z z
  | JBool b => Return (if b then 1%float else 0%float)
  | JStr s =>
      match float_of_str rt s with
      | Some f => Return f
      | None => Raise ValueError
      end
  | _ => Raise TypeError
  end.

Definition py_str (v : json) : string :=
  match v with
  | JStr s => s
  | JInt z => str_int z
  | JBool true => "True"
  | JBool false => "False"
  | JNull => "None"
  | _ => py_repr rt v
  end.

(** [f"{x}"] for a float. *)
Definition str_float (f : float) : string := py_repr rt (JFloat f).

(** [v.lower()]: only a str has the method. *)
Definition py_lower (v : json) : outcome string :=
  match v with
  | JStr s => Return (lower s)
  | _ => Raise AttributeError
  end.
End Builtins.

(** ** The compositing planner of [render.main] (lines 85-133)

    The planner is string building.  [img_chain], [filter_complex] and
    [cmd] are the source's f-strings, with the source's names. *)

Section Planner.
Variable rt : runtime.

(** Lines 88-92. *)
Definition img_chain (fit : string) (w h : Z) : string :=
  if String.eqb fit "contain" then
    "scale=" +:+ str_int w +:+ ":" +:+ str_int h
      +:+ ":force_original_aspect_ratio=decrease,pad="
      +:+ str_int w +:+ ":" +:+ str_int h +:+ ":(ow-iw)/2:(oh-ih)/2"
  else
    "scale=" +:+ str_int w +:+ ":" +:+ str_int h
      +:+ ":force_original_aspect_ratio=increase,crop="
      +:+ str_int w +:+ ":" +:+ str_int h.

(** The configuration values the planner reads (lines 62-74). *)
Record resolved : Type := {
  x : Z; y : Z; w : Z; h : Z;
  chroma_hex : string; similarity : float; blend : float;
  fit : string;
  fps : Z; crf : Z; preset : string;
}.

(** Lines 98-106 and 118-124. *)
Definition filter_complex (r : resolved) (border_path : option string)
    (canvas_w canvas_h : Z) : string :=
  match border_path with
  | Some _ =>
      "[1:v]" +:+ img_chain (fit r) (w r) (h r) +:+ "[photo];"
      +:+ "color=c=black:s=" +:+ str_int canvas_w +:+ "x" +:+ str_int canvas_h
      +:+ "[base];"
      +:+ "[base][photo]overlay=" +:+ str_int (x r) +:+ ":" +:+ str_int (y r)
      +:+ "[bg];"
      +:+ "[0:v]format=rgba,colorkey=0x" +:+ chroma_hex r +:+ ":"
      +:+ str_float rt (similarity r) +:+ ":" +:+ str_float rt (blend r)
      +:+ "[fg];"
      +:+ "[bg][fg]overlay=0:0[v1];"
      +:+ "[v1][2:v]overlay=0:0,format=yuv420p[vout]"
  | None =>
      "[1:v]" +:+ img_chain (fit r) (w r) (h r) +:+ "[photo];"
      +:+ "color=c=black:s=" +:+ str_int canvas_w +:+ "x" +:+ str_int canvas_h
      +:+ "[base];"
      +:+ "[base][photo]overlay=" +:+ str_int (x r) +:+ ":" +:+ str_int (y r)
      +:+ "[bg];"
      +:+ "[0:v]format=rgba,colorkey=0x" +:+ chroma_hex r +:+ ":"
      +:+ str_float rt (similarity r) +:+ ":" +:+ str_float rt (blend r)
      +:+ "[fg];"
      +:+ "[bg][fg]overlay=0:0,format=yuv420p[vout]"
  end.

(** Lines 107-116 and 125-133. *)
Definition cmd (r : resolved) (border_path : option string)
    (canvas_w canvas_h : Z) (template_video img out : string) : string :=
  match border_path with
  | Some bp =>
      "ffmpeg -y "
      +:+ "-i " +:+ shlex_quote rt template_video +:+ " "
      +:+ "-loop 1 -i " +:+ shlex_quote rt img +:+ " "
      +:+ "-i " +:+ shlex_quote rt bp +:+ " "
      +:+ "-filter_complex " +:+ dq
      +:+ filter_complex r border_path canvas_w canvas_h +:+ dq +:+ " "
      +:+ "-map " +:+ dq +:+ "[vout]" +:+ dq +:+ " -map 0:a? -shortest "
      +:+ "-r " +:+ str_int (fps r) +:+ " -c:v libx264 -crf " +:+ str_int (crf r)
      +:+ " -preset " +:+ preset r +:+ " -c:a aac "
      +:+ shlex_quote rt out
  | None =>
      "ffmpeg -y "
      +:+ "-i " +:+ shlex_quote rt template_video +:+ " "
      +:+ "-loop 1 -i " +:+ shlex_quote rt img +:+ " "
      +:+ "-filter_complex " +:+ dq
      +:+ filter_complex r border_path canvas_w canvas_h +:+ dq +:+ " "
      +:+ "-map " +:+ dq +:+ "[vout]" +:+ dq +:+ " -map 0:a? -shortest "
      +:+ "-r " +:+ str_int (fps r) +:+ " -c:v libx264 -crf " +:+ str_int (crf r)
      +:+ " -preset " +:+ preset r +:+ " -c:a aac "
      +:+ shlex_quote rt out
  end.
End Planner.

(** ** The filter graph as a term

    The text the planner emits is the concrete syntax of a filter graph of
    the compositing collaborator.  [graph] is its abstract syntax,
    [render_graph] prints it, and [plan_graph] is the graph whose print is
    [filter_complex] (lemma [render_plan_graph] below). *)

Inductive aspect : Type := Decrease | Increase.

(** The offset expressions of a [pad] filter. *)
Inductive pexpr : Type :=
| OW | OH | IW | IH
| Sub (a b : pexpr)
| Half (a : pexpr).

Inductive filter : Type :=
| Scale (w h : Z) (a : aspect)
| Crop (w h : Z)
| Pad (w h : Z) (px py : pexpr)
| Color (c : string) (w h : Z)
| Overlay (x y : Z)
| Format (pix_fmt : string)
| Colorkey (hex : string) (similarity blend : float).

Record chain : Type := {
  inputs : list string;
  filters : list filter;
  output : string;
}.

Definition graph : Type := list chain.



Section Render.
Variable rt : runtime.





(** The filters applied to the customer photo. *)
Definition photo_chain (fit : string) (w h : Z) : list filter :=
  if String.eqb fit "contain" then
    [Scale w h Decrease; Pad w h (Half (Sub OW IW)) (Half (Sub OH IH))]
  else
    [Scale w h Increase; Crop w h].

Definition plan_graph (r : resolved) (border_path : option string)
    (canvas_w canvas_h : Z) : graph :=
  let common :=
    [ {| inputs := ["1:v"]; filters := photo_chain (fit r) (w r) (h r);
         output := "photo" |};
      {| inputs := []; filters := [Color "black" canvas_w canvas_h];
         output := "base" |};
      {| inputs := ["base"; "photo"]; filters := [Overlay (x r) (y r)];
         output := "bg" |};
      {| inputs := ["0:v"];
         filters := [Format "rgba";
                     Colorkey (chroma_hex r) (similarity r) (blend r)];
         output := "fg" |} ] in
  match border_path with
  | Some _ =>
      common ++
      [ {| inputs := ["bg"; "fg"]; filters := [Overlay 0 0]; output := "v1" |};
        {| inputs := ["v1"; "2:v"]; filters := [Overlay 0 0; Format "yuv420p"];
           output := "vout" |} ]
  | None =>
      common ++
      [ {| inputs := ["bg"; "fg"]; filters := [Overlay 0 0; Format "yuv420p"];
           output := "vout" |} ]
  end.
End Render.

(** ** The wiring of the filter graph

    The repository hands the graph to an external tool, which computes the
    pixels; sizes, rounding and pixel formats are that tool's and are not
    modelled.  What the graph itself fixes is the wiring: which input goes
    through which filters and which stream is drawn over which.  [overlay]
    draws its second input over its first; every other filter of the
    planner has one input and one output. *)

(** Layers.  A stream is the stack of layers it shows, back to front; each
    layer remembers where it came from, where it sits on the canvas and the
    one-input filters it went through. *)
Inductive source : Type :=
| Template           (* input 0: the template video *)
| Photo              (* input 1: the customer image *)
| BorderAsset        (* input 2: the border PNG *)
| Solid (c : string) (w h : Z).

Record layer : Type := {
  content : source;
  pos : Z * Z;
  treated : list filter;
}.

Definition stream : Type := list layer.

Definition treat (f : filter) (l : layer) : layer :=
  {| content := content l; pos := pos l; treated := treated l ++ [f] |}.

Definition shift (dx dy : Z) (l : layer) : layer :=
  {| content := content l; pos := (fst (pos l) + dx, snd (pos l) + dy);
     treated := treated l |}.



Definition run_filter (f : filter) (ins : list stream) : option stream :=
  match f, ins with
  | Color c w h, [] => Some [ {| content := Solid c w h; pos := (0, 0); treated := [] |} ]
  | Overlay dx dy, [a; b] => Some (a ++ map (shift dx dy) b)
  | (Scale _ _ _ | Crop _ _ | Pad _ _ _ _ | Format _ | Colorkey _ _ _), [a] =>
      Some (map (treat f) a)
  | _, _ => None
  end.

Fixpoint run_filters (fs : list filter) (ins : list stream) : option stream :=
  match fs with
  | [] => match ins with [a] => Some a | _ => None end
  | f :: fs' => s ← run_filter f ins; run_filters fs' [s]
  end.

Definition pads : Type := list (string * stream).

Fixpoint pad_lookup (l : string) (env : pads) : option stream :=
  match env with
  | [] => None
  | (l', s) :: env' => if String.eqb l l' then Some s else pad_lookup l env'
  end.

Fixpoint run_graph (g : graph) (env : pads) : option pads :=
  match g with
  | [] => Some env
  | c :: g' =>
      ins ← mapM (fun l => pad_lookup l env) (inputs c);
      s ← run_filters (filters c) ins;
      run_graph g' ((output c, s) :: env)
  end.

Definition raw (s : source) : stream :=
  [ {| content := s; pos := (0, 0); treated := [] |} ].

(** The input pads, in the order of the [-i] options of [cmd]. *)
Definition input_pads (border_path : option string) : pads :=
  [("0:v", raw Template); ("1:v", raw Photo)]
  ++ match border_path with
     | Some _ => [("2:v", raw BorderAsset)]
     | None => []
     end.

(** The stack the output pad [vout] shows. *)
Definition composition (g : graph) (border_path : option string) : option stream :=
  env ← run_graph g (input_pads border_path); pad_lookup "vout" env.

(** ** Configuration resolution (lines 62-74 of [render.main]) *)

Section Resolver.
Variable rt : runtime.

Definition resolve (cfg : json) : outcome resolved :=
  ph ← py_item cfg "placeholder";
  vx ← py_item ph "x" ≫= py_int rt;
  vy ← py_item ph "y" ≫= py_int rt;
  vw ← py_item ph "w" ≫= py_int rt;
  vh ← py_item ph "h" ≫= py_int rt;
  chroma ← py_get cfg "chroma" (JObj []);
  hex ← py_get chroma "hex" (JStr "3ec954") ≫= py_lower;
  vsimilarity ← py_get chroma "similarity" (JFloat 0.23) ≫= py_float rt;
  vblend ← py_get chroma "blend" (JFloat 0.03) ≫= py_float rt;
  vfit ← py_get cfg "fit" (JStr "cover") ≫= py_lower;
  out_cfg ← py_get cfg "output" (JObj []);
  vfps ← py_get out_cfg "fps" (JInt 30) ≫= py_int rt;
  vcrf ← py_get out_cfg "crf" (JInt 18) ≫= py_int rt;
  vpreset ← py_get out_cfg "preset" (JStr "medium");
  Return {| x := vx; y := vy; w := vw; h := vh;
            chroma_hex := remove_char "#" hex;
            similarity := vsimilarity; blend := vblend;
            fit := vfit;
            fps := vfps; crf := vcrf; preset := py_str rt vpreset |}.
End Resolver.

(** ** Effects: the file system, external commands, printed lines *)

(** Only regular files are kept: directories are not modelled, so the
    [mkdir(parents=True, exist_ok=True)] calls of the source have no
    counterpart here. *)

Inductive command : Type :=
| Argv (args : list string)    (* subprocess with an argument list *)
| Shell (line : string).       (* subprocess with shell=True *)

Record state : Type := {
  fs : gmap string string;     (* regular files: path to contents *)
  launched : list command;     (* external commands, oldest first *)
  printed : list string;       (* lines written by [print], oldest first *)
}.

(** What is drawn by the intro and outro generators. *)
Record animation : Type := {
  kind : string;
  name : string;
  width : Z;
  height : Z;
  total_frames : Z;
  font : option string;
  logo : option string;
}.

(** The environment.  A command given as an argument list only reports
    (these are the version checks and the media probe); [None] is a missing
    executable.  A shell command line always yields a status, and may
    change the file system (these are the encodes). *)
Record world : Type := {
  exec_argv : list string -> gmap string string -> option (Z * string);
  exec_shell : string -> gmap string string -> Z * string * gmap string string;
  draw_frames : animation -> gmap string string -> option exn;
  write_videofile : animation -> string -> gmap string string -> outcome (gmap string string);
  now : string;                (* datetime.now().strftime("%Y%m%d_%H%M%S") *)
  gettempdir : string;
  getpid : Z;
  platform_system : string;
  exn_str : exn -> string;     (* str(e) *)
}.

Definition M (A : Type) : Type := state -> state * outcome A.

Global Instance M_ret : MRet M := fun A a st => (st, Return a).
Global Instance M_bind : MBind M := fun A B f m st =>
  match m st with
  | (st', Return a) => f a st'
  | (st', Raise e) => (st', Raise e)
  end.

Definition raise {A : Type} (e : exn) : M A := fun st => (st, Raise e).

Definition lift {A : Type} (o : outcome A) : M A := fun st => (st, o).

(** [try: body  except Exception as e: handler e]. *)
Definition try_except {A : Type} (body : M A) (handler : exn -> M A) : M A :=
  fun st =>
    match body st with
    | (st', Raise e) => if is_Exception e then handler e st' else (st', Raise e)
    | r => r
    end.

Definition print (line : string) : M unit := fun st =>
  ({| fs := fs st; launched := launched st; printed := printed st ++ [line] |},
   Return ()).

Definition path_exists (p : string) : M bool := fun st =>
  (st, Return (bool_decide (is_Some (fs st !! p)))).

Definition read_text (p : string) : M string := fun st =>
  match fs st !! p with
  | Some txt => (st, Return txt)
  | None => (st, Raise FileNotFoundError)
  end.

Definition write_text (p txt : string) : M unit := fun st =>
  ({| fs := <[p := txt]> (fs st); launched := launched st; printed := printed st |},
   Return ()).

(** [Path(p).unlink(missing_ok=True)]. *)
Definition unlink (p : string) : M unit := fun st =>
  ({| fs := delete p (fs st); launched := launched st; printed := printed st |},
   Return ()).

Section Subprocess.
Variable wd : world.

(** [subprocess.run(args)] with an argument list: status and stdout. *)
Definition subprocess_run (args : list string) : M (Z * string) := fun st =>
  let st' := {| fs := fs st; launched := launched st ++ [Argv args];
                printed := printed st |} in
  match exec_argv wd args (fs st) with
  | Some r => (st', Return r)
  | None => (st', Raise FileNotFoundError)
  end.

(** [subprocess.run(args, check=True)]. *)
Definition subprocess_run_check (args : list string) : M (Z * string) :=
  r ← subprocess_run args;
  if fst r =? 0 then mret r else raise (CalledProcessError (fst r)).

(** [subprocess.check_output(args, text=True)]. *)
Definition check_output (args : list string) : M string :=
  r ← subprocess_run_check args; mret (snd r).

(** [subprocess.run(line, shell=True)]: status and stderr. *)
Definition subprocess_run_shell (line : string) : M (Z * string) := fun st =>
  let '(rc, err, fs') := exec_shell wd line (fs st) in
  ({| fs := fs'; launched := launched st ++ [Shell line]; printed := printed st |},
   Return (rc, err)).
End Subprocess.

(** ** [render.py] *)

Section Render_py.
Variable rt : runtime.
Variable wd : world.

Definition ensure_ffmpeg : M unit :=
  try_except
    (_ ← subprocess_run_check wd ["ffmpeg"; "-version"];
     _ ← subprocess_run_check wd ["ffprobe"; "-version"];
     mret ())
    (fun _ => raise (SystemExit
       "❌ ffmpeg/ffprobe not found. Install ffmpeg and ensure it's on PATH.")).

(** The argument list of the media probe. *)
Definition ffprobe_cmd (path : string) : list string :=
  ["ffprobe"; "-v"; "error";
   "-select_streams"; "v:0";
   "-show_entries"; "stream=width,height";
   "-of"; "json";
   path].

Definition loads (txt : string) : M json :=
  match json_loads rt txt with
  | Some v => mret v
  | None => raise JSONDecodeError
  end.

(** [streams[0]]. *)
Definition first_item (v : json) : outcome json :=
  match v with
  | JArr (v0 :: _) => Return v0
  | JArr [] => Raise IndexError
  | JStr (String c _) => Return (JStr (String c EmptyString))
  | JStr EmptyString => Raise IndexError
  | JObj _ => Raise (KeyError "0")
  | _ => Raise TypeError
  end.

Definition ffprobe_size (path : string) : M (Z * Z) :=
  out ← check_output wd (ffprobe_cmd path);
  data ← loads out;
  streams ← lift (py_get data "streams" (JArr []));
  if negb (truthy streams) then
    raise (SystemExit ("❌ Could not read video size from: " +:+ path))
  else
    vw ← lift (s0 ← first_item streams; py_item s0 "width" ≫= py_int rt);
    vh ← lift (s0 ← first_item streams; py_item s0 "height" ≫= py_int rt);
    mret (vw, vh).

Definition run (c : string) : M unit :=
  _ ← print (">> " +:+ c);
  p ← subprocess_run_shell wd c;
  if negb (fst p =? 0) then raise (SystemExitCode (fst p)) else mret ().

(** The operand of [tdir / name]. *)
Definition as_name (v : json) : outcome string :=
  match v with
  | JStr s => Return s
  | _ => Raise TypeError
  end.

(** Lines 56-60: the border asset to draw, if any. *)
Definition resolve_border (tdir : string) (cfg : json) : M (option string) :=
  border_png ← lift (py_get cfg "border_png" JNull);
  if truthy border_png then
    border_path ← lift (joinpath rt tdir <$> as_name border_png);
    present ← path_exists border_path;
    if negb present then
      _ ← print ("⚠️ border_png configured but missing, ignoring: " +:+ border_path);
      mret None
    else mret (Some border_path)
  else mret None.

(** Line 52: the template footage. *)
Definition template_video_path (tdir : string) (cfg : json) : outcome string :=
  joinpath rt tdir <$> (py_get cfg "template_video" (JStr "template.mp4") ≫= as_name).

(** Lines 62-136: resolve the remaining fields, check the customer image,
    probe the canvas and run the encode. *)
Definition composite (cfg : json) (template_video : string)
    (border_path : option string) (image_path out_path : string) : M unit :=
  r ← lift (resolve rt cfg);
  let img := Path rt image_path in
  img_present ← path_exists img;
  if negb img_present then
    raise (SystemExit ("❌ customer image not found: " +:+ img))
  else
  let out := Path rt out_path in
  canvas ← ffprobe_size template_video;
  _ ← run (cmd rt r border_path (fst canvas) (snd canvas) template_video img out);
  print ("✅ Rendered: " +:+ out).

(** Lines 52-136: [main] once [template.json] is loaded. *)
Definition main_with (tdir : string) (cfg : json) (image_path out_path : string)
    : M unit :=
  template_video ← lift (template_video_path tdir cfg);
  tv_present ← path_exists template_video;
  if negb tv_present then
    raise (SystemExit ("❌ template video not found: " +:+ template_video))
  else
  border_path ← resolve_border tdir cfg;
  composite cfg template_video border_path image_path out_path.

Definition main (template_folder image_path out_path : string) : M unit :=
  _ ← ensure_ffmpeg;
  let tdir := Path rt template_folder in
  let cfg_path := joinpath rt tdir "template.json" in
  cfg_present ← path_exists cfg_path;
  if negb cfg_present then
    raise (SystemExit ("❌ template.json not found in: " +:+ tdir))
  else
  txt ← read_text cfg_path;
  cfg ← loads txt;
  main_with tdir cfg image_path out_path.
End Render_py.

(** ** [intro_generator.py] and [outro_generator.py]

    Drawing the frames (fonts, logo, easing) and encoding them with the
    video library are the oracles [draw_frames] and [write_videofile]; the
    canvas choice, the commands, the files and the clean-up are the
    source's. *)

Definition nl : string := String (ascii_of_nat 10) EmptyString.

Fixpoint first_existing (l : list string) (found : string -> M unit)
    : M (option string) :=
  match l return M (option string) with
  | [] => mret None
  | p :: l' =>
      present ← path_exists p;
      if (present : bool) then _ ← found p; mret (Some p)
      else first_existing l' found
  end.

Definition possible_logo_paths : list string :=
  ["assets/logo.png"; "assets/city_bakers_logo.png"; "logo.png";
   "templates/logo.png"].

Module intro_generator.
Section Intro.
Variable rt : runtime.
Variable wd : world.

Definition get_video_dimensions (video_path : string) : M (Z * Z) :=
  result ← subprocess_run wd (ffprobe_cmd video_path);
  data ← loads rt (snd result);
  streams ← lift (py_get data "streams" (JArr []));
  if negb (truthy streams) then
    (* Default to common video size *)
    mret (1080, 1920)
  else
    vw ← lift (s0 ← first_item streams; py_item s0 "width" ≫= py_int rt);
    vh ← lift (s0 ← first_item streams; py_item s0 "height" ≫= py_int rt);
    mret (vw, vh).

Definition font_paths (system : string) : list string :=
  if String.eqb system "Darwin" then
    ["/System/Library/Fonts/Supplemental/Arial Black.ttf";
     "/System/Library/Fonts/Supplemental/Arial Bold.ttf";
     "/System/Library/Fonts/Supplemental/Futura.ttc";
     "/System/Library/Fonts/Supplemental/Impact.ttf";
     "/Library/Fonts/Arial.ttf"]
  else if String.eqb system "Linux" then
    ["/usr/share/fonts/truetype/dejavu/DejaVuSans-Bold.ttf";
     "/usr/share/fonts/truetype/liberation/LiberationSans-Bold.ttf";
     "/usr/share/fonts/TTF/DejaVuSans-Bold.ttf";
     "/usr/share/fonts/truetype/dejavu/DejaVuSans.ttf"]
  else if String.eqb system "Windows" then
    ["C:/Windows/Fonts/impact.ttf";
     "C:/Windows/Fonts/arialbd.ttf";
     "C:/Windows/Fonts/ariblk.ttf";
     "C:/Windows/Fonts/arial.ttf"]
  else [].

Fixpoint first_font (l : list string) : M (option string) :=
  match l return M (option string) with
  | [] => mret None
  | f :: l' =>
      present ← path_exists (Path rt f);
      if (present : bool) then mret (Some f) else first_font l'
  end.

Definition get_font_path : M (option string) :=
  first_font (font_paths (platform_system wd)).

(** The canvas of a generated clip (lines 288-291). *)
Definition canvas_for (template_video : option string) : M (Z * Z) :=
  match template_video with
  | Some tv =>
      if truthy (JStr tv) then
        present ← path_exists (Path rt tv);
        if (present : bool) then get_video_dimensions tv else mret (1080, 1920)
      else mret (1080, 1920)
  | None => mret (1080, 1920)
  end.

Definition create_intro_video (customer_name output_path : string)
    (duration : Z) (template_video logo_path : option string) : M string :=
  let out := Path rt output_path in
  canvas ← canvas_for template_video;
  _ ← print ("Creating intro with dimensions: " +:+ str_int (fst canvas) +:+ "x"
             +:+ str_int (snd canvas));
  font_path ← get_font_path;
  logo_path ←
    (if truthy (default JNull (JStr <$> logo_path)) then mret logo_path
     else
       found ← first_existing (map (Path rt) possible_logo_paths)
                 (fun p => print ("Found logo: " +:+ p));
       mret (match found with Some p => Some p | None => logo_path end));
  let fps := 30 in
  let frames := {| kind := "intro"; name := customer_name;
                   width := fst canvas; height := snd canvas;
                   total_frames := fps * duration;
                   font := font_path; logo := logo_path |} in
  _ ← print ("Generating " +:+ str_int (fps * duration)
             +:+ " frames for intro animation...");
  _ ← (fun st => match draw_frames wd frames (fs st) with
                 | None => (st, Return ())
                 | Some e => (st, Raise e)
                 end);
  _ ← print "Creating video from frames...";
  let temp_video :=
    joinpath rt (parent rt out) ("temp_intro_" +:+ str_int (getpid wd) +:+ ".mp4") in
  _ ← (fun st => match write_videofile wd frames temp_video (fs st) with
                 | Return fs' =>
                     ({| fs := fs'; launched := launched st; printed := printed st |},
                      Return ())
                 | Raise e => (st, Raise e)
                 end);
  let c :=
    "ffmpeg -y -i " +:+ shlex_quote rt temp_video +:+ " "
    +:+ "-f lavfi -i anullsrc=channel_layout=stereo:sample_rate=44100 "
    +:+ "-t " +:+ str_int duration +:+ " -c:v copy -c:a aac -shortest "
    +:+ shlex_quote rt out in
  p ← subprocess_run_shell wd c;
  if negb (fst p =? 0) then raise (CalledProcessError (fst p)) else
  _ ← unlink (Path rt temp_video);
  _ ← print ("✅ Intro created: " +:+ out);
  mret out.
End Intro.
End intro_generator.

Module outro_generator.
Section Outro.
Variable rt : runtime.
Variable wd : world.

Definition get_video_dimensions (video_path : string) : M (Z * Z) :=
  result ← subprocess_run wd (ffprobe_cmd video_path);
  data ← loads rt (snd result);
  streams ← lift (py_get data "streams" (JArr []));
  if negb (truthy streams) then
    mret (1080, 1920)
  else
    vw ← lift (s0 ← first_item streams; py_item s0 "width" ≫= py_int rt);
    vh ← lift (s0 ← first_item streams; py_item s0 "height" ≫= py_int rt);
    mret (vw, vh).

(** The canvas of a generated clip (lines 140-143). *)
Definition canvas_for (template_video : option string) : M (Z * Z) :=
  match template_video with
  | Some tv =>
      if truthy (JStr tv) then
        present ← path_exists (Path rt tv);
        if (present : bool) then get_video_dimensions tv else mret (1080, 1920)
      else mret (1080, 1920)
  | None => mret (1080, 1920)
  end.

Definition create_outro_video (output_path : string) (duration : Z)
    (template_video logo_path : option string) : M string :=
  let out := Path rt output_path in
  canvas ← canvas_for template_video;
  _ ← print ("Creating outro with dimensions: " +:+ str_int (fst canvas) +:+ "x"
             +:+ str_int (snd canvas));
  logo_path ←
    (if truthy (default JNull (JStr <$> logo_path)) then mret logo_path
     else
       found ← first_existing (map (Path rt) possible_logo_paths)
                 (fun p => print ("Found logo for outro: " +:+ p));
       mret (match found with Some p => Some p | None => logo_path end));
  let fps := 30 in
  let frames := {| kind := "outro"; name := EmptyString;
                   width := fst canvas; height := snd canvas;
                   total_frames := fps * duration;
                   font := None; logo := logo_path |} in
  _ ← print ("Generating " +:+ str_int (fps * duration)
             +:+ " frames for outro animation...");
  _ ← (fun st => match draw_frames wd frames (fs st) with
                 | None => (st, Return ())
                 | Some e => (st, Raise e)
                 end);
  _ ← print "Creating outro video from frames...";
  let temp_video :=
    joinpath rt (parent rt out) ("temp_outro_" +:+ str_int (getpid wd) +:+ ".mp4") in
  _ ← (fun st => match write_videofile wd frames temp_video (fs st) with
                 | Return fs' =>
                     ({| fs := fs'; launched := launched st; printed := printed st |},
                      Return ())
                 | Raise e => (st, Raise e)
                 end);
  let c :=
    "ffmpeg -y -i " +:+ shlex_quote rt temp_video +:+ " "
    +:+ "-f lavfi -i anullsrc=channel_layout=stereo:sample_rate=44100 "
    +:+ "-t " +:+ str_int duration +:+ " -c:v copy -c:a aac -shortest "
    +:+ shlex_quote rt out in
  p ← subprocess_run_shell wd c;
  if negb (fst p =? 0) then raise (CalledProcessError (fst p)) else
  _ ← unlink (Path rt temp_video);
  _ ← print ("✅ Outro created: " +:+ out);
  mret out.

(** The concat list and the stream-copy pass (lines 216-243). *)
Definition concat_list_path (output_path : string) : string :=
  joinpath rt (parent rt (Path rt output_path)) "concat_list.txt".

Definition concatenate_videos_with_outro
    (intro_path main_video_path outro_path output_path : string) : M string :=
  let out := Path rt output_path in
  let concat_file := concat_list_path output_path in
  _ ← write_text concat_file
        ("file '" +:+ absolute rt (Path rt intro_path) +:+ "'" +:+ nl
         +:+ "file '" +:+ absolute rt (Path rt main_video_path) +:+ "'" +:+ nl
         +:+ "file '" +:+ absolute rt (Path rt outro_path) +:+ "'" +:+ nl);
  let c :=
    "ffmpeg -y "
    +:+ "-f concat -safe 0 -i " +:+ shlex_quote rt concat_file +:+ " "
    +:+ "-c copy "
    +:+ shlex_quote rt out in
  _ ← print (">> Concatenating intro + main + outro videos: " +:+ c);
  p ← subprocess_run_shell wd c;
  _ ← unlink concat_file;
  if negb (fst p =? 0) then
    raise (RuntimeError ("Failed to concatenate videos: " +:+ snd p))
  else
  _ ← print ("✅ Final video created: " +:+ out);
  mret out.
End Outro.
End outro_generator.

(** ** [app.render_video] *)

Section App.
Variable rt : runtime.
Variable wd : world.

Definition temp_dir : string :=
  joinpath rt (Path rt (gettempdir wd)) "birthday_wisher".

Definition intro_clip : string :=
  joinpath rt temp_dir ("intro_" +:+ now wd +:+ ".mp4").
Definition main_clip : string :=
  joinpath rt temp_dir ("main_" +:+ now wd +:+ ".mp4").
Definition outro_clip : string :=
  joinpath rt temp_dir ("outro_" +:+ now wd +:+ ".mp4").

Definition final_output (output_name : string) : string :=
  joinpath rt (Path rt "output") (output_name +:+ "_" +:+ now wd +:+ ".mp4").

Definition render_video
    (template_folder image_path output_name customer_name : string) : M string :=
  try_except
    (let timestamp := now wd in
     let template_video_path :=
       joinpath rt (joinpath rt (Path rt "templates") template_folder)
                "template.mp4" in
     let intro_path := intro_clip in
     tv1 ← path_exists template_video_path;
     _ ← intro_generator.create_intro_video rt wd customer_name intro_path 4
           (if (tv1 : bool) then Some template_video_path else None) None;
     let main_video_path := main_clip in
     _ ← main rt wd (joinpath rt (Path rt "templates") template_folder)
           image_path main_video_path;
     let outro_path := outro_clip in
     tv2 ← path_exists template_video_path;
     _ ← outro_generator.create_outro_video rt wd outro_path 3
           (if (tv2 : bool) then Some template_video_path else None) None;
     let final_output_path := final_output output_name in
     _ ← outro_generator.concatenate_videos_with_outro rt wd
           intro_path main_video_path outro_path final_output_path;
     _ ← unlink intro_path;
     _ ← unlink main_video_path;
     _ ← unlink outro_path;
     _ ← unlink main_video_path;
     mret final_output_path)
    (fun e => raise (Exception ("Rendering failed: " +:+ exn_str wd e))).
End App.

(** ** Reading a configuration by path *)

(** The value written in a configuration under a path of keys, if any. *)
Fixpoint lookup_path (path : list string) (v : json) : option json :=
  match path with
  | [] => Some v
  | k :: path' =>
      match v with
      | JObj kv => dict_lookup k kv ≫= lookup_path path'
      | _ => None
      end
  end.

(** A dict without the key [k]. *)
Fixpoint dict_remove (k : string) (kv : list (string * json)) : list (string * json) :=
  match kv with
  | [] => []
  | (k', v) :: kv' =>
      if String.eqb k k' then dict_remove k kv' else (k', v) :: dict_remove k kv'
  end.

(** [cfg.get(k1, {}).get(k2, dflt)]: the nested reads of the resolver. *)
Fixpoint py_get_in (v : json) (path : list string) (dflt : json) : outcome json :=
  match path with
  | [] => Return v
  | [k] => py_get v k dflt
  | k :: path' => c ← py_get v k (JObj []); py_get_in c path' dflt
  end.

(** [cfg[k1][k2]]. *)
Fixpoint py_item_in (v : json) (path : list string) : outcome json :=
  match path with
  | [] => Return v
  | k :: path' => c ← py_item v k; py_item_in c path'
  end.

(** The same resolved configuration with another fit mode. *)
Definition with_fit (f : string) (r : resolved) : resolved :=
  {| x := x r; y := y r; w := w r; h := h r;
     chroma_hex := chroma_hex r; similarity := similarity r; blend := blend r;
     fit := f; fps := fps r; crf := crf r; preset := preset r |}.

(** The resolved values are literally the values written in the
    configuration. *)
Definition keeps_explicit_values (cfg : json) (r : resolved) : Prop :=
  lookup_path ["placeholder"; "x"] cfg = Some (JInt (x r)) /\
  lookup_path ["placeholder"; "y"] cfg = Some (JInt (y r)) /\
  lookup_path ["placeholder"; "w"] cfg = Some (JInt (w r)) /\
  lookup_path ["placeholder"; "h"] cfg = Some (JInt (h r)) /\
  lookup_path ["chroma"; "hex"] cfg = Some (JStr (chroma_hex r)) /\
  lookup_path ["chroma"; "similarity"] cfg = Some (JFloat (similarity r)) /\
  lookup_path ["chroma"; "blend"] cfg = Some (JFloat (blend r)) /\
  lookup_path ["fit"] cfg = Some (JStr (fit r)) /\
  lookup_path ["output"; "fps"] cfg = Some (JInt (fps r)) /\
  lookup_path ["output"; "crf"] cfg = Some (JInt (crf r)) /\
  lookup_path ["output"; "preset"] cfg = Some (JStr (preset r)).

(** The state after one run of the media probe on [path]. *)
Definition probed (st : state) (path : string) : state :=
  {| fs := fs st; launched := launched st ++ [Argv (ffprobe_cmd path)];
     printed := printed st |}.

(** The two commands of [ensure_ffmpeg]. *)
Definition version_checks : list command :=
  [Argv ["ffmpeg"; "-version"]; Argv ["ffprobe"; "-version"]].

(** Two states that differ by one extra printed line after [pre]. *)
Definition apart (pre : list string) (line : string) (sa sb : state) : Prop :=
  fs sa = fs sb /\ launched sa = launched sb /\
  exists post, printed sa = pre ++ line :: post /\ printed sb = pre ++ post.

(** A computation that cannot tell such states apart. *)
Definition alike (pre : list string) (line : string) {A : Type} (m : M A) : Prop :=
  forall sa sb, apart pre line sa sb ->
    apart pre line (fst (m sa)) (fst (m sb)) /\ snd (m sa) = snd (m sb).

(** ** A concrete runtime and world, for the examples *)

Fixpoint before_last_slash (s : string) : option string :=
  match s with
  | EmptyString => None
  | String c s' =>
      match before_last_slash s' with
      | Some d => Some (String c d)
      | None => if Ascii.eqb c "/" then Some EmptyString else None
      end
  end.

Fixpoint last_word (s : string) : string :=
  match s with
  | EmptyString => EmptyString
  | String c s' =>
      if existsb (Ascii.eqb " ") (list_ascii_of_string s') then last_word s'
      else if Ascii.eqb c " " then s' else s
  end.

Fixpoint text_lookup (txt : string) (table : list (string * json)) : option json :=
  match table with
  | [] => None
  | (t, v) :: table' => if String.eqb txt t then Some v else text_lookup txt table'
  end.

Definition demo_repr (v : json) : string :=
  match v with
  | JFloat f =>
      if PrimFloat.eqb f 0.23 then "0.23"
      else if PrimFloat.eqb f 0.03 then "0.03"
      else if PrimFloat.eqb f 0.3 then "0.3"
      else if PrimFloat.eqb f 0.1 then "0.1"
      else "<float>"
  | _ => "<object>"
  end.

(** Paths are plain relative strings without blanks, so quoting and
    normalising leave them alone; JSON texts are looked up in a table. *)
Definition demo_runtime (table : list (string * json)) : runtime :=
  {| json_loads := fun txt => text_lookup txt table;
     int_of_str := fun _ => None;
     float_of_str := fun _ => None;
     py_repr := demo_repr;
     shlex_quote := fun s => s;
     Path := fun s => s;
     joinpath := fun d n => d +:+ "/" +:+ n;
     parent := fun p => default "." (before_last_slash p);
     absolute := fun p => "/srv/" +:+ p |}.

(** Every tool is installed and reports [report]; a shell command with
    status 0 writes its last word, the output path; [fails] picks the
    command lines that end with status 1. *)
Definition demo_world (report : string) (fails : string -> bool) : world :=
  {| exec_argv := fun _ _ => Some (0, report);
     exec_shell := fun line files =>
       if fails line then (1, "error", files)
       else (0, EmptyString, <[last_word line := "video"]> files);
     draw_frames := fun _ _ => None;
     write_videofile := fun _ p files => Return (<[p := "frames"]> files);
     now := "20240101_120000";
     gettempdir := "tmp";
     getpid := 7;
     platform_system := "Linux";
     exn_str := fun _ => "error" |}.

Definition demo_probe : json :=
  JObj [("streams", JArr [JObj [("width", JInt 1080); ("height", JInt 1920)]])].

Definition demo_cfg : json :=
  JObj [("placeholder",
         JObj [("x", JInt 100); ("y", JInt 200); ("w", JInt 800); ("h", JInt 800)])].

(** A configuration with every field written out. *)
Definition full_kv : list (string * json) :=
  [("template_video", JStr "clip.mp4");
   ("border_png", JStr "border.png");
   ("placeholder",
    JObj [("x", JInt 100); ("y", JInt 200); ("w", JInt 800); ("h", JInt 800)]);
   ("chroma",
    JObj [("hex", JStr "00FF00"); ("similarity", JFloat 0.3);
          ("blend", JFloat 0.1)]);
   ("fit", JStr "contain");
   ("output",
    JObj [("fps", JInt 25); ("crf", JInt 20); ("preset", JStr "fast")])].

Definition full_cfg : json := JObj full_kv.

(** What [full_cfg] resolves to. *)
Definition full_request : resolved :=
  {| x := 100; y := 200; w := 800; h := 800;
     chroma_hex := "00ff00"; similarity := 0.3; blend := 0.1;
     fit := "contain"; fps := 25; crf := 20; preset := "fast" |}.

(** A configuration with a misspelt fit mode. *)
Definition misspelt_kv : list (string * json) :=
  [("fit", JStr "Covr");
   ("placeholder",
    JObj [("x", JInt 100); ("y", JInt 200); ("w", JInt 800); ("h", JInt 800)])].

Definition demo_table : list (string * json) :=
  [("CFG", demo_cfg); ("FULL", full_cfg); ("PROBE", demo_probe);
   ("NOSTREAM", JObj [("streams", JArr [])])].

Definition demo_rt : runtime := demo_runtime demo_table.

Definition empty_state (files : gmap string string) : state :=
  {| fs := files; launched := []; printed := [] |}.

(** A template folder with its configuration and footage, and no
    customer image. *)
Definition demo_files : gmap string string :=
  <["templates/t1/template.json" := "CFG"]>
    (<["templates/t1/template.mp4" := "footage"]> ∅).

Definition demo_files_with_photo : gmap string string :=
  <["photo.jpg" := "image"]> demo_files.

(** A template folder whose configuration names a border that is not
    there. *)
Definition demo_files_no_border : gmap string string :=
  <["templates/t2/template.json" := "FULL"]>
    (<["templates/t2/clip.mp4" := "footage"]> ∅).

(** Every command succeeds. *)
Definition demo_wd : world := demo_world "PROBE" (fun _ => false).

(** The probe finds no video stream. *)
Definition no_stream_wd : world := demo_world "NOSTREAM" (fun _ => false).

(** The concatenation fails, everything before it succeeds. *)
Definition concat_fails (line : string) : bool :=
  String.prefix "ffmpeg -y -f concat" line.

Definition failing_concat_wd : world := demo_world "PROBE" concat_fails.

(** What [demo_cfg] resolves to: placeholder 800x800 at (100, 200) and
    every default. *)
Definition cover_request : resolved :=
  {| x := 100; y := 200; w := 800; h := 800;
     chroma_hex := "3ec954"; similarity := 0.23; blend := 0.03;
     fit := "cover"; fps := 30; crf := 18; preset := "medium" |}.

(** ** Further definitions for the properties of the pipeline *)

(** A tool answered its version check: it was found and exited with
    status 0. *)
Definition tool_ok (wd : world) (args : list string) (files : gmap string string)
    : bool :=
  match exec_argv wd args files with
  | Some (rc, _) => rc =? 0
  | None => false
  end.

(** Adding commands to the record of launched commands. *)
Definition launch (st : state) (l : list command) : state :=
  {| fs := fs st; launched := launched st ++ l; printed := printed st |}.

Definition is_shell (c : command) : bool :=
  match c with
  | Shell _ => true
  | Argv _ => false
  end.

(** [try: body  except: handler]: a bare [except] catches every
    exception. *)
Definition try_except_all {A : Type} (body : M A) (handler : M A) : M A :=
  fun st =>
    match body st with
    | (st', Raise _) => handler st'
    | r => r
    end.

(** [app.check_ffmpeg]. *)
Definition check_ffmpeg (wd : world) : M bool :=
  try_except_all
    (_ ← subprocess_run_check wd ["ffmpeg"; "-version"];
     mret true)
    (mret false).

(** A computation that neither touches the files nor launches a command. *)
Definition silent {A : Type} (m : M A) : Prop :=
  forall st, fs (fst (m st)) = fs st /\ launched (fst (m st)) = launched st.

(** A computation that leaves the state alone. *)
Definition stateless {A : Type} (m : M A) : Prop := forall st, fst (m st) = st.

(** What [composite] has done when it got as far as the encode: the
    configuration resolved to [r], the customer image was there, the probe
    gave the canvas, and the one encode command ran. *)
Definition encoded (rt : runtime) (wd : world) (cfg : json) (tv : string)
    (bp : option string) (image_path out_path : string)
    (st st' : state) (o : outcome unit) : Prop :=
  exists r cw ch,
    resolve rt cfg = Return r /\
    is_Some (fs st !! Path rt image_path) /\
    ffprobe_size rt wd tv st = (probed st tv, Return (cw, ch)) /\
    let c := cmd rt r bp cw ch tv (Path rt image_path) (Path rt out_path) in
    let res := exec_shell wd c (fs st) in
    st' = {| fs := snd res;
             launched := launched st ++ [Argv (ffprobe_cmd tv); Shell c];
             printed := printed st ++ [">> " +:+ c]
                        ++ (if fst (fst res) =? 0
                            then ["✅ Rendered: " +:+ Path rt out_path] else []) |} /\
    o = if fst (fst res) =? 0 then Return () else Raise (SystemExitCode (fst (fst res))).

(** The exit of [ensure_ffmpeg]. *)
Definition ffmpeg_missing_exit : exn :=
  SystemExit "❌ ffmpeg/ffprobe not found. Install ffmpeg and ensure it's on PATH.".

(** Text in the ASCII range, on which [lower] is Python's [str.lower]. *)
Definition is_ascii (c : ascii) : bool := Nat.ltb (nat_of_ascii c) 128.

Definition ascii_text (s : string) : bool := forallb is_ascii (list_ascii_of_string s).

(** A computation that launches no command. *)
Definition offline {A : Type} (m : M A) : Prop :=
  forall st, launched (fst (m st)) = launched st.

(** The temporary files of the generators. *)
Definition intro_temp (rt : runtime) (wd : world) (output_path : string) : string :=
  joinpath rt (parent rt (Path rt output_path))
    ("temp_intro_" +:+ str_int (getpid wd) +:+ ".mp4").

Definition outro_temp (rt : runtime) (wd : world) (output_path : string) : string :=
  joinpath rt (parent rt (Path rt output_path))
    ("temp_outro_" +:+ str_int (getpid wd) +:+ ".mp4").

(** The command that adds the silent audio track to a generated clip. *)
Definition mux_cmd (rt : runtime) (temp_video : string) (duration : Z) (out : string)
    : string :=
  "ffmpeg -y -i " +:+ shlex_quote rt temp_video +:+ " "
  +:+ "-f lavfi -i anullsrc=channel_layout=stereo:sample_rate=44100 "
  +:+ "-t " +:+ str_int duration +:+ " -c:v copy -c:a aac -shortest "
  +:+ shlex_quote rt out.

(** The stream-copy concatenation command. *)
Definition concat_cmd (rt : runtime) (output_path : string) : string :=
  "ffmpeg -y "
  +:+ "-f concat -safe 0 -i "
  +:+ shlex_quote rt (outro_generator.concat_list_path rt output_path) +:+ " "
  +:+ "-c copy "
  +:+ shlex_quote rt (Path rt output_path).

(** How a generator ends once its canvas is known: either it fails before
    the mux and launches nothing, or the mux [c] runs on some file system;
    with status 0 the clip path [out] is returned and [temp] is removed,
    with another status [CalledProcessError] is raised and the files are
    left as the mux left them. *)
Definition mux_outcome (wd : world) (c temp out : string)
    (st st' : state) (o : outcome string) : Prop :=
  (launched st' = launched st /\ exists e, o = Raise e) \/
  (exists files,
      launched st' = launched st ++ [Shell c] /\
      if fst (fst (exec_shell wd c files)) =? 0
      then o = Return out /\ fs st' = delete temp (snd (exec_shell wd c files))
      else o = Raise (CalledProcessError (fst (fst (exec_shell wd c files)))) /\
           fs st' = snd (exec_shell wd c files)).

(** The probe a generator may launch for its canvas. *)
Definition canvas_probe (l : list command) : Prop :=
  l = [] \/ exists tv, l = [Argv (ffprobe_cmd tv)].

(** ffmpeg is installed and ffprobe is not; everything else as in
    [demo_wd]. *)
Definition no_ffprobe_wd : world :=
  {| exec_argv := fun args _ =>
       match args with
       | "ffprobe" :: _ => None
       | _ => Some (0, "PROBE")
       end;
     exec_shell := exec_shell demo_wd;
     draw_frames := draw_frames demo_wd;
     write_videofile := write_videofile demo_wd;
     now := now demo_wd;
     gettempdir := gettempdir demo_wd;
     getpid := getpid demo_wd;
     platform_system := platform_system demo_wd;
     exn_str := exn_str demo_wd |}.

(** A template folder with its configuration and without its footage. *)
Definition demo_files_no_footage : gmap string string :=
  <["templates/t1/template.json" := "CFG"]> ∅.

(** [demo_cfg] with a key that the renderer does not know. *)
Definition commented_kv : list (string * json) :=
  [("comment", JStr "spring campaign");
   ("placeholder",
    JObj [("x", JInt 100); ("y", JInt 200); ("w", JInt 800); ("h", JInt 800)])].

(** * Properties *)

(** ** The graph term prints to the planner's text *)

Lemma append_assoc (a b c : string) : (a +:+ b) +:+ c = a +:+ (b +:+ c).
Proof.
  induction a as [|ch a IH]; [reflexivity|].
  change (String ch ((a +:+ b) +:+ c) = String ch (a +:+ (b +:+ c))).
  now rewrite IH.
Qed.

Ltac flatten_strings := repeat (rewrite !append_assoc || simpl String.append); cbn [String.append].




(** ** The resolver *)

Ltac case_outcome_in H :=
  match type of H with
  | context [match ?m with Return _ => _ | Raise _ => _ end] =>
      lazymatch m with
      | context [match _ with Return _ => _ | Raise _ => _ end] => fail
      | _ => destruct m eqn:?; try discriminate H
      end
  end.

Ltac use_returns :=
  repeat match goal with
         | E : ?l = Return _ |- context [?l] => rewrite E
         end.

Lemma resolve_inv rt cfg r :
  resolve rt cfg = Return r ->
  (py_item_in cfg ["placeholder"; "x"] ≫= py_int rt) = Return (x r) /\
  (py_item_in cfg ["placeholder"; "y"] ≫= py_int rt) = Return (y r) /\
  (py_item_in cfg ["placeholder"; "w"] ≫= py_int rt) = Return (w r) /\
  (py_item_in cfg ["placeholder"; "h"] ≫= py_int rt) = Return (h r) /\
  (remove_char "#" <$> (py_get_in cfg ["chroma"; "hex"] (JStr "3ec954") ≫= py_lower))
    = Return (chroma_hex r) /\
  (py_get_in cfg ["chroma"; "similarity"] (JFloat 0.23) ≫= py_float rt)
    = Return (similarity r) /\
  (py_get_in cfg ["chroma"; "blend"] (JFloat 0.03) ≫= py_float rt) = Return (blend r) /\
  (py_get_in cfg ["fit"] (JStr "cover") ≫= py_lower) = Return (fit r) /\
  (py_get_in cfg ["output"; "fps"] (JInt 30) ≫= py_int rt) = Return (fps r) /\
  (py_get_in cfg ["output"; "crf"] (JInt 18) ≫= py_int rt) = Return (crf r) /\
  (py_str rt <$> py_get_in cfg ["output"; "preset"] (JStr "medium")) = Return (preset r).
Proof.
  intros H. unfold resolve in H. unfold mbind, outcome_bind in H.
  repeat case_outcome_in H.
  injection H as <-.
  cbn [py_get_in py_item_in x y w h chroma_hex similarity blend fit fps crf preset].
  unfold mbind, outcome_bind, fmap, outcome_fmap.
  repeat split; use_returns; reflexivity.
Qed.
Ltac case_outcome :=
  match goal with
  | |- context [match ?m with Return _ => _ | Raise _ => _ end] =>
      lazymatch m with
      | context [match _ with Return _ => _ | Raise _ => _ end] => fail
      | _ => destruct m eqn:?
      end
  end.

Lemma py_item_cons_ne k k' v kv :
  String.eqb k k' = false -> py_item (JObj ((k', v) :: kv)) k = py_item (JObj kv) k.
Proof. intros E. unfold py_item. cbn [dict_lookup]. now rewrite E. Qed.

Lemma py_get_cons_ne k k' v kv d :
  String.eqb k k' = false -> py_get (JObj ((k', v) :: kv)) k d = py_get (JObj kv) k d.
Proof. intros E. unfold py_get. cbn [dict_lookup]. now rewrite E. Qed.

Lemma py_get_cons_eq k v kv d : py_get (JObj ((k, v) :: kv)) k d = Return v.
Proof. unfold py_get. cbn [dict_lookup]. now rewrite String.eqb_refl. Qed.

Lemma py_get_found k kv d v :
  dict_lookup k kv = Some v -> py_get (JObj kv) k d = Return v.
Proof. intros E. unfold py_get. now rewrite E. Qed.

Lemma py_get_missing k kv d :
  dict_lookup k kv = None -> py_get (JObj kv) k d = Return d.
Proof. intros E. unfold py_get. now rewrite E. Qed.

Lemma resolve_fit rt kv s :
  dict_lookup "fit" kv = Some (JStr s) ->
  resolve rt (JObj kv)
  = with_fit (lower s) <$> resolve rt (JObj (("fit", JStr "cover") :: kv)).
Proof.
  intros Hfit. unfold resolve.
  rewrite (py_item_cons_ne "placeholder"), (py_get_cons_ne "chroma"),
    (py_get_cons_ne "output"), py_get_cons_eq by reflexivity.
  rewrite (py_get_found "fit" kv _ _ Hfit).
  unfold mbind, outcome_bind, fmap, outcome_fmap. cbn [py_lower].
  repeat case_outcome; reflexivity.
Qed.

Lemma lookup_path_obj_empty k p : lookup_path (k :: p) (JObj []) = None.
Proof. reflexivity. Qed.

Lemma py_get_in_step v k k2 p d :
  py_get_in v (k :: k2 :: p) d
  = match py_get v k (JObj []) with
    | Return c => py_get_in c (k2 :: p) d
    | Raise e => Raise e
    end.
Proof. reflexivity. Qed.

Lemma get_in_absent p : forall cfg d v,
  p <> [] -> lookup_path p cfg = None -> py_get_in cfg p d = Return v -> v = d.
Proof.
  induction p as [|k p IH]; intros cfg d v Hp Hl Hg; [congruence|].
  destruct p as [|k2 p].
  - cbn [py_get_in] in Hg. destruct cfg; try discriminate Hg.
    cbn [lookup_path] in Hl. unfold py_get in Hg.
    destruct (dict_lookup k kv); [discriminate Hl|]. now injection Hg.
  - rewrite py_get_in_step in Hg. destruct cfg; try discriminate Hg.
    cbn [lookup_path] in Hl. unfold py_get in Hg.
    destruct (dict_lookup k kv) as [c|]; cbn [default] in Hg.
    + apply (IH c d v); [discriminate | exact Hl | exact Hg].
    + apply (IH (JObj []) d v); [discriminate | reflexivity | exact Hg].
Qed.

Lemma get_in_present p : forall cfg d v,
  p <> [] -> lookup_path p cfg = Some v -> py_get_in cfg p d = Return v.
Proof.
  induction p as [|k p IH]; intros cfg d v Hp Hl; [congruence|].
  destruct cfg; try discriminate Hl.
  cbn [lookup_path] in Hl.
  destruct (dict_lookup k kv) as [c|] eqn:E; [|discriminate Hl].
  cbn [mbind option_bind] in Hl.
  destruct p as [|k2 p].
  - cbn [lookup_path] in Hl. injection Hl as ->. cbn [py_get_in]. unfold py_get. now rewrite E.
  - rewrite py_get_in_step. unfold py_get. rewrite E. cbn [default].
    apply IH; [discriminate | exact Hl].
Qed.

Lemma item_in_present p : forall cfg v,
  lookup_path p cfg = Some v -> py_item_in cfg p = Return v.
Proof.
  induction p as [|k p IH]; intros cfg v Hl.
  - cbn in Hl. injection Hl as ->. reflexivity.
  - destruct cfg; try discriminate Hl.
    cbn [lookup_path] in Hl. destruct (dict_lookup k kv) as [c|] eqn:E; [|discriminate Hl].
    cbn [py_item_in]. unfold py_item. rewrite E. cbn [mbind outcome_bind]. now apply IH.
Qed.

Lemma composition_plan r b cw ch :
  composition (plan_graph r b cw ch) b
  = Some ([ {| content := Solid "black" cw ch; pos := (0, 0);
               treated := [Format "yuv420p"] |};
            {| content := Photo; pos := (x r, y r);
               treated := photo_chain (fit r) (w r) (h r) ++ [Format "yuv420p"] |};
            {| content := Template; pos := (0, 0);
               treated := [Format "rgba";
                           Colorkey (chroma_hex r) (similarity r) (blend r);
                           Format "yuv420p"] |} ]
          ++ match b with
             | Some _ => [ {| content := BorderAsset; pos := (0, 0);
                              treated := [Format "yuv420p"] |} ]
             | None => []
             end).
Proof.
  unfold composition, plan_graph, photo_chain.
  destruct b; destruct (String.eqb (fit r) "contain"); reflexivity.
Qed.



(** ** Layer order *)


(** ** Defaults and explicit values *)

Lemma resolve_dict rt cfg r : resolve rt cfg = Return r -> exists kv, cfg = JObj kv.
Proof.
  intros H. destruct cfg as [| | | | | |kv]; try discriminate H. now exists kv.
Qed.

Lemma resolve_border_absent rt tdir kv st :
  dict_lookup "border_png" kv = None ->
  resolve_border rt tdir (JObj kv) st = (st, Return None).
Proof.
  intros E. unfold resolve_border. rewrite (py_get_missing _ _ _ E). reflexivity.
Qed.

Ltac default_of H :=
  unfold mbind, outcome_bind, fmap, outcome_fmap in H;
  match type of H with
  | context [py_get_in ?c ?p ?d] =>
      let v := fresh "v" in
      let E := fresh "E" in
      destruct (py_get_in c p d) as [v|] eqn:E; [|discriminate H];
      match goal with
      | A : lookup_path p c = None |- _ =>
          apply (get_in_absent p c d v ltac:(discriminate) A) in E; subst v
      end
  end.

(** C4.  Whenever a configuration resolves, every absent field has its
    default: chroma.hex 3ec954, chroma.similarity 0.23, chroma.blend 0.03,
    fit cover, output.fps 30, output.crf 18, output.preset medium; and with
    border_png absent no border is resolved and the plan has the three
    layers background, photo, template only. *)
Theorem C4_defaults rt (cfg : json) (r : resolved) :
  resolve rt cfg = Return r ->
  (lookup_path ["chroma"; "hex"] cfg = None -> chroma_hex r = "3ec954") /\
  (lookup_path ["chroma"; "similarity"] cfg = None -> similarity r = 0.23%float) /\
  (lookup_path ["chroma"; "blend"] cfg = None -> blend r = 0.03%float) /\
  (lookup_path ["fit"] cfg = None -> fit r = "cover") /\
  (lookup_path ["output"; "fps"] cfg = None -> fps r = 30) /\
  (lookup_path ["output"; "crf"] cfg = None -> crf r = 18) /\
  (lookup_path ["output"; "preset"] cfg = None -> preset r = "medium") /\
  (lookup_path ["border_png"] cfg = None ->
   forall (tdir : string) (st : state) (canvas_w canvas_h : Z),
     resolve_border rt tdir cfg st = (st, Return None) /\
     exists stack,
       composition (plan_graph r None canvas_w canvas_h) None = Some stack /\
       map content stack = [Solid "black" canvas_w canvas_h; Photo; Template]).
Proof.
  intros H. destruct (resolve_dict _ _ _ H) as [kv ->].
  destruct (resolve_inv _ _ _ H)
    as (_ & _ & _ & _ & Hhex & Hsim & Hbl & Hfit & Hfps & Hcrf & Hpre).
  split; [intros A; default_of Hhex; now injection Hhex|].
  split; [intros A; default_of Hsim; now injection Hsim|].
  split; [intros A; default_of Hbl; now injection Hbl|].
  split; [intros A; default_of Hfit; now injection Hfit|].
  split; [intros A; default_of Hfps; now injection Hfps|].
  split; [intros A; default_of Hcrf; now injection Hcrf|].
  split; [intros A; default_of Hpre; now injection Hpre|].
  intros A tdir st canvas_w canvas_h. split.
  - apply resolve_border_absent. cbn [lookup_path] in A.
    destruct (dict_lookup "border_png" kv); [discriminate A | reflexivity].
  - eexists. split; [apply composition_plan | reflexivity].
Qed.

Ltac explicit_of H A :=
  unfold mbind, outcome_bind, fmap, outcome_fmap in H;
  match type of H with
  | context [py_get_in ?c ?p ?d] =>
      rewrite (get_in_present p c d _ ltac:(discriminate) A) in H
  | context [py_item_in ?c ?p] =>
      rewrite (item_in_present p c _ A) in H
  end;
  cbn [py_int py_float py_lower py_str] in H; congruence.

(** C8, as stated, fails: the configuration [full_cfg] writes every field,
    and its key colour 00FF00 resolves to 00ff00. *)
Lemma C8_counterexample :
  exists r, resolve demo_rt full_cfg = Return r /\ ~ keeps_explicit_values full_cfg r.
Proof.
  eexists. split; [reflexivity|].
  intros (_ & _ & _ & _ & Hhex & _). discriminate Hhex.
Qed.

(** C8 (amended).  Resolving substitutes no default for an explicit field:
    integers, floats, the preset, the template video and an existing border
    are taken as written, while chroma.hex is lower-cased and loses every
    '#', and fit is lower-cased. *)
Theorem C8_explicit_values_kept_or_normalised rt (cfg : json) (r : resolved) :
  resolve rt cfg = Return r ->
  (forall z, lookup_path ["placeholder"; "x"] cfg = Some (JInt z) -> x r = z) /\
  (forall z, lookup_path ["placeholder"; "y"] cfg = Some (JInt z) -> y r = z) /\
  (forall z, lookup_path ["placeholder"; "w"] cfg = Some (JInt z) -> w r = z) /\
  (forall z, lookup_path ["placeholder"; "h"] cfg = Some (JInt z) -> h r = z) /\
  (forall s, lookup_path ["chroma"; "hex"] cfg = Some (JStr s) ->
             chroma_hex r = remove_char "#" (lower s)) /\
  (forall f, lookup_path ["chroma"; "similarity"] cfg = Some (JFloat f) ->
             similarity r = f) /\
  (forall f, lookup_path ["chroma"; "blend"] cfg = Some (JFloat f) -> blend r = f) /\
  (forall s, lookup_path ["fit"] cfg = Some (JStr s) -> fit r = lower s) /\
  (forall z, lookup_path ["output"; "fps"] cfg = Some (JInt z) -> fps r = z) /\
  (forall z, lookup_path ["output"; "crf"] cfg = Some (JInt z) -> crf r = z) /\
  (forall s, lookup_path ["output"; "preset"] cfg = Some (JStr s) -> preset r = s) /\
  (forall s tdir, lookup_path ["template_video"] cfg = Some (JStr s) ->
                  template_video_path rt tdir cfg = Return (joinpath rt tdir s)) /\
  (forall s tdir st, lookup_path ["border_png"] cfg = Some (JStr s) -> s <> EmptyString ->
                     is_Some (fs st !! joinpath rt tdir s) ->
                     resolve_border rt tdir cfg st
                     = (st, Return (Some (joinpath rt tdir s)))).
Proof.
  intros H.
  destruct (resolve_inv _ _ _ H)
    as (Hx & Hy & Hw & Hh & Hhex & Hsim & Hbl & Hfit & Hfps & Hcrf & Hpre).
  split; [intros z A; explicit_of Hx A|].
  split; [intros z A; explicit_of Hy A|].
  split; [intros z A; explicit_of Hw A|].
  split; [intros z A; explicit_of Hh A|].
  split; [intros s A; explicit_of Hhex A|].
  split; [intros f A; explicit_of Hsim A|].
  split; [intros f A; explicit_of Hbl A|].
  split; [intros s A; explicit_of Hfit A|].
  split; [intros z A; explicit_of Hfps A|].
  split; [intros z A; explicit_of Hcrf A|].
  split; [intros s A; explicit_of Hpre A|].
  split.
  - intros s tdir A. unfold template_video_path.
    change (py_get cfg "template_video" (JStr "template.mp4"))
      with (py_get_in cfg ["template_video"] (JStr "template.mp4")).
    rewrite (get_in_present ["template_video"] cfg _ _ ltac:(discriminate) A).
    reflexivity.
  - intros s tdir st A Hs [txt Hex]. unfold resolve_border.
    change (py_get cfg "border_png" JNull) with (py_get_in cfg ["border_png"] JNull).
    rewrite (get_in_present ["border_png"] cfg _ _ ltac:(discriminate) A).
    unfold lift, mbind, M_bind. cbn [truthy].
    rewrite (proj2 (String.eqb_neq s EmptyString) Hs). cbn [negb as_name fmap outcome_fmap].
    unfold path_exists. rewrite Hex.
    rewrite bool_decide_eq_true_2 by (now exists txt). reflexivity.
Qed.

(** C10.  A fit string other than contain (after lower-casing) resolves
    exactly as fit = cover does, errors included, and the planner emits
    the cover chain for it. *)
Theorem C10_unknown_fit_plans_cover rt (kv : list (string * json)) (s : string) :
  dict_lookup "fit" kv = Some (JStr s) -> lower s <> "contain" ->
  resolve rt (JObj kv)
  = with_fit (lower s) <$> resolve rt (JObj (("fit", JStr "cover") :: kv)) /\
  forall wv hv : Z,
    img_chain (lower s) wv hv = img_chain "cover" wv hv /\
    photo_chain (lower s) wv hv = [Scale wv hv Increase; Crop wv hv].
Proof.
  intros Hfit Hs. split; [now apply resolve_fit|].
  intros wv hv. unfold img_chain, photo_chain.
  rewrite (proj2 (String.eqb_neq (lower s) "contain") Hs). split; reflexivity.
Qed.

(** ** The media probe *)

(** C7.  When the probe reports no video stream, [ffprobe_size] of the
    main render raises (the could-not-read exit, or the probe's own failure
    status) and returns no size, while [get_video_dimensions] of the intro
    and outro generators returns the default canvas 1080x1920. *)
Theorem C7_probe_without_stream rt wd (path : string) (st : state)
    (rc : Z) (out : string) (kv : list (string * json)) :
  exec_argv wd (ffprobe_cmd path) (fs st) = Some (rc, out) ->
  json_loads rt out = Some (JObj kv) ->
  dict_lookup "streams" kv = None \/ dict_lookup "streams" kv = Some (JArr []) ->
  ffprobe_size rt wd path st
  = (probed st path,
     Raise (if rc =? 0
            then SystemExit ("❌ Could not read video size from: " +:+ path)
            else CalledProcessError rc)) /\
  intro_generator.get_video_dimensions rt wd path st
  = (probed st path, Return (1080, 1920)) /\
  outro_generator.get_video_dimensions rt wd path st
  = (probed st path, Return (1080, 1920)).
Proof.
  intros Hexec Hjson Hstreams.
  assert (Hs : default (JArr []) (dict_lookup "streams" kv) = JArr []).
  { destruct Hstreams as [-> | ->]; reflexivity. }
  unfold ffprobe_size, intro_generator.get_video_dimensions,
    outro_generator.get_video_dimensions, check_output, subprocess_run_check,
    subprocess_run, loads, lift, raise, probed.
  unfold mbind, M_bind, mret, M_ret. rewrite Hexec. cbn.
  destruct (rc =? 0); cbn; rewrite ?Hjson; cbn; rewrite ?Hs; cbn; repeat split; reflexivity.
Qed.

(** ** Failing fast on a missing customer image *)

Ltac run_cbn := cbn -[Z.eqb String.eqb bool_decide].

Section Effects.
Variable rt : runtime.
Variable wd : world.

Lemma bind_run {A B : Type} (m : M A) (f : A -> M B) (st : state) :
  (m ≫= f) st
  = match m st with
    | (st', Return a) => f a st'
    | (st', Raise e) => (st', Raise e)
    end.
Proof. reflexivity. Qed.

Lemma ensure_ffmpeg_runs (st : state) :
  exists (l : list command) (o : outcome unit),
    ensure_ffmpeg wd st
    = ({| fs := fs st; launched := launched st ++ l; printed := printed st |}, o) /\
    (l = [Argv ["ffmpeg"; "-version"]] \/ l = version_checks) /\
    (forall o1 o2,
        exec_argv wd ["ffmpeg"; "-version"] (fs st) = Some (0, o1) ->
        exec_argv wd ["ffprobe"; "-version"] (fs st) = Some (0, o2) ->
        l = version_checks /\ o = Return ()).
Proof.
  unfold ensure_ffmpeg, try_except, subprocess_run_check, subprocess_run, raise.
  unfold mbind, M_bind, mret, M_ret. run_cbn.
  destruct (exec_argv wd ["ffmpeg"; "-version"] (fs st)) as [[rc1 o1]|] eqn:E1; run_cbn.
  - destruct (rc1 =? 0) eqn:Z1; run_cbn.
    + destruct (exec_argv wd ["ffprobe"; "-version"] (fs st)) as [[rc2 o2]|] eqn:E2;
        run_cbn.
      * destruct (rc2 =? 0) eqn:Z2; run_cbn; rewrite <- app_assoc; eexists _, _;
          (split; [reflexivity|]); (split; [now right|]);
          intros ? ? [= -> ->] [= -> ->]; try discriminate Z2.
        now split.
      * rewrite <- app_assoc. eexists _, _.
        split; [reflexivity|]. split; [now right|]. intros ? ? _ [=].
    + eexists _, _. split; [reflexivity|]. split; [now left|].
      intros ? ? [= -> ->]. discriminate Z1.
  - eexists _, _. split; [reflexivity|]. split; [now left|].
    intros ? ? [=].
Qed.

Lemma resolve_border_runs (tdir : string) (cfg : json) (st : state) :
  exists (st' : state) (o : outcome (option string)),
    resolve_border rt tdir cfg st = (st', o) /\
    fs st' = fs st /\ launched st' = launched st /\
    ((forall v, lookup_path ["border_png"] cfg = Some v -> truthy v = true ->
                exists s, v = JStr s) ->
     (exists kv, cfg = JObj kv) ->
     exists bp, o = Return bp).
Proof.
  unfold resolve_border, lift, path_exists, print.
  unfold mbind, M_bind, mret, M_ret.
  destruct cfg as [| | | | | |kv];
    try (eexists _, _; split; [reflexivity|]; split; [reflexivity|];
         split; [reflexivity|]; intros _ [kv [=]]).
  run_cbn. destruct (dict_lookup "border_png" kv) as [v|] eqn:E; run_cbn.
  - destruct (truthy v) eqn:T; run_cbn.
    + destruct v as [| | | |s| |]; run_cbn;
        try (eexists _, _; split; [reflexivity|]; split; [reflexivity|];
             split; [reflexivity|]; intros Hs _;
             destruct (Hs _ eq_refl T) as [? [=]]).
      destruct (bool_decide _); run_cbn;
        eexists _, _; (split; [reflexivity|]); run_cbn; repeat split; eauto.
    + eexists _, _. split; [reflexivity|]. repeat split; eauto.
  - eexists _, _. split; [reflexivity|]. repeat split; eauto.
Qed.

Lemma composite_missing_image (cfg : json) (tv : string) (bp : option string)
    (image_path out_path : string) (st : state) :
  fs st !! Path rt image_path = None ->
  exists e,
    composite rt wd cfg tv bp image_path out_path st = (st, Raise e) /\
    (forall r, resolve rt cfg = Return r ->
               e = SystemExit ("❌ customer image not found: " +:+ Path rt image_path)).
Proof.
  intros Himg. unfold composite, lift, path_exists, raise.
  unfold mbind, M_bind. destruct (resolve rt cfg) as [r|e].
  - rewrite Himg. rewrite bool_decide_eq_false_2 by (intros [? [=]]). cbn [negb].
    eexists. split; [reflexivity|]. reflexivity.
  - eexists. split; [reflexivity|]. intros ? [=].
Qed.

Lemma main_with_missing_image (tdir : string) (cfg : json)
    (image_path out_path : string) (st : state) :
  fs st !! Path rt image_path = None ->
  exists e st',
    main_with rt wd tdir cfg image_path out_path st = (st', Raise e) /\
    fs st' = fs st /\ launched st' = launched st /\
    (forall tv r,
        template_video_path rt tdir cfg = Return tv ->
        is_Some (fs st !! tv) ->
        (forall v, lookup_path ["border_png"] cfg = Some v -> truthy v = true ->
                   exists s, v = JStr s) ->
        resolve rt cfg = Return r ->
        e = SystemExit ("❌ customer image not found: " +:+ Path rt image_path)).
Proof.
  intros Himg. unfold main_with. rewrite bind_run. unfold lift at 1.
  destruct (template_video_path rt tdir cfg) as [tv|e] eqn:Etv.
  2:{ eexists _, _. split; [reflexivity|]. repeat split. intros ? ? [=]. }
  rewrite bind_run. unfold path_exists at 1.
  destruct (bool_decide (is_Some (fs st !! tv))) eqn:Ep; cbn [negb].
  2:{ eexists _, _. split; [reflexivity|]. repeat split.
      intros ? ? [= <-] Hp. apply bool_decide_eq_false_1 in Ep. contradiction. }
  rewrite bind_run.
  destruct (resolve_border_runs tdir cfg st) as (st1 & o & -> & Hfs & Hl & Hb).
  destruct o as [bp|e].
  2:{ eexists _, _. split; [reflexivity|]. repeat split; try assumption.
      intros ? r _ _ Hty Hr. destruct (resolve_dict _ _ _ Hr) as [kv ->].
      destruct (Hb Hty ltac:(eauto)) as [? [=]]. }
  destruct (composite_missing_image cfg tv bp image_path out_path st1) as (e & -> & He).
  { now rewrite Hfs. }
  eexists _, _. split; [reflexivity|]. repeat split; try assumption.
  intros ? r _ _ _ Hr. now apply (He r).
Qed.

(** C5 (amended).  When the customer image is missing, [main] raises
    without touching the file system, and the only external commands it
    has launched are the tool version checks of [ensure_ffmpeg]: neither the
    media probe nor the encode is started.  When the checks pass and the
    configuration resolves, the error is the missing-image exit. *)
Theorem C5_missing_image_runs_no_probe_no_encode
    (template_folder image_path out_path : string) (st : state) :
  fs st !! Path rt image_path = None ->
  exists e st',
    main rt wd template_folder image_path out_path st = (st', Raise e) /\
    fs st' = fs st /\
    (launched st' = launched st ++ [Argv ["ffmpeg"; "-version"]] \/
     launched st' = launched st ++ version_checks) /\
    (forall o1 o2 txt cfg tv r,
        exec_argv wd ["ffmpeg"; "-version"] (fs st) = Some (0, o1) ->
        exec_argv wd ["ffprobe"; "-version"] (fs st) = Some (0, o2) ->
        fs st !! joinpath rt (Path rt template_folder) "template.json" = Some txt ->
        json_loads rt txt = Some cfg ->
        template_video_path rt (Path rt template_folder) cfg = Return tv ->
        is_Some (fs st !! tv) ->
        (forall v, lookup_path ["border_png"] cfg = Some v -> truthy v = true ->
                   exists s, v = JStr s) ->
        resolve rt cfg = Return r ->
        e = SystemExit ("❌ customer image not found: " +:+ Path rt image_path)).
Proof.
  intros Himg. destruct (ensure_ffmpeg_runs st) as (l & o & He & Hl & Hok).
  assert (Hlaunch : launched st ++ l = launched st ++ [Argv ["ffmpeg"; "-version"]] \/
                    launched st ++ l = launched st ++ version_checks)
    by (destruct Hl as [-> | ->]; auto).
  unfold main. rewrite bind_run, He.
  destruct o as [[]|e].
  2:{ eexists _, _. split; [reflexivity|]. repeat split; try assumption.
      intros ? ? ? ? ? ? H1 H2. destruct (Hok _ _ H1 H2) as [_ [=]]. }
  set (st1 := {| fs := fs st; launched := launched st ++ l; printed := printed st |}).
  rewrite bind_run. unfold path_exists at 1.
  change (fs st1) with (fs st).
  destruct (fs st !! joinpath rt (Path rt template_folder) "template.json")
    as [txt|] eqn:Ecfg.
  2:{ rewrite bool_decide_eq_false_2 by (intros [? [=]]). cbn [negb].
      eexists _, _. split; [reflexivity|]. repeat split; try assumption.
      intros ? ? ? ? ? ? _ _ [=]. }
  rewrite bool_decide_eq_true_2 by eauto. cbn [negb].
  rewrite bind_run. unfold read_text at 1. change (fs st1) with (fs st). rewrite Ecfg.
  rewrite bind_run. unfold loads at 1.
  destruct (json_loads rt txt) as [cfg|] eqn:Ej.
  2:{ eexists _, _. split; [reflexivity|]. repeat split; try assumption.
      intros ? ? ? ? ? ? _ _ [= <-] Hj. rewrite Ej in Hj. discriminate Hj. }
  unfold mret, M_ret.
  destruct (main_with_missing_image (Path rt template_folder) cfg image_path out_path st1
              Himg) as (e & st' & -> & Hfs & Hla & Hexact).
  eexists _, _. split; [reflexivity|]. split; [exact Hfs|].
  split; [rewrite Hla; exact Hlaunch|].
  intros ? ? ? ? tv r _ _ [= <-] Hj Htv Hp Hty Hr.
  rewrite Ej in Hj. injection Hj as <-.
  exact (Hexact tv r Htv Hp Hty Hr).
Qed.
End Effects.

(** C5, as stated, fails: with the customer image missing, [main] has
    started two external processes when it raises. *)
Lemma C5_counterexample :
  fs (empty_state demo_files) !! Path demo_rt "photo.jpg" = None /\
  launched (empty_state demo_files) = [] /\
  main demo_rt demo_wd "templates/t1" "photo.jpg" "out/video.mp4"
    (empty_state demo_files)
  = ({| fs := demo_files; launched := version_checks; printed := [] |},
     Raise (SystemExit "❌ customer image not found: photo.jpg")) /\
  length version_checks = 2%nat.
Proof. repeat split; vm_compute; reflexivity. Qed.

(** ** A border that is configured and missing *)

Lemma dict_lookup_remove_ne k k' kv :
  k <> k' -> dict_lookup k' (dict_remove k kv) = dict_lookup k' kv.
Proof.
  intros Hne. induction kv as [|[k0 v] kv IH]; [reflexivity|].
  cbn [dict_remove dict_lookup].
  destruct (String.eqb k k0) eqn:E.
  - apply String.eqb_eq in E. subst k0.
    rewrite (proj2 (String.eqb_neq k' k)) by congruence. exact IH.
  - cbn [dict_lookup]. now rewrite IH.
Qed.

Lemma dict_lookup_remove_eq k kv : dict_lookup k (dict_remove k kv) = None.
Proof.
  induction kv as [|[k0 v] kv IH]; [reflexivity|].
  cbn [dict_remove]. destruct (String.eqb k k0) eqn:E; [exact IH|].
  cbn [dict_lookup]. now rewrite E.
Qed.

Lemma py_get_remove_ne k k' kv d :
  k <> k' -> py_get (JObj (dict_remove k kv)) k' d = py_get (JObj kv) k' d.
Proof. intros Hne. unfold py_get. now rewrite dict_lookup_remove_ne. Qed.

Lemma py_item_remove_ne k k' kv :
  k <> k' -> py_item (JObj (dict_remove k kv)) k' = py_item (JObj kv) k'.
Proof. intros Hne. unfold py_item. now rewrite dict_lookup_remove_ne. Qed.

Lemma resolve_remove_border rt kv :
  resolve rt (JObj (dict_remove "border_png" kv)) = resolve rt (JObj kv).
Proof.
  unfold resolve.
  rewrite (py_item_remove_ne "border_png" "placeholder"),
    (py_get_remove_ne "border_png" "chroma"), (py_get_remove_ne "border_png" "fit"),
    (py_get_remove_ne "border_png" "output") by discriminate.
  reflexivity.
Qed.

Section Alike.
Variable rt : runtime.
Variable wd : world.
Variable pre : list string.
Variable line : string.

Lemma alike_const {A : Type} (o : outcome A) : alike pre line (fun st => (st, o)).
Proof. intros sa sb R. split; [exact R | reflexivity]. Qed.

Lemma alike_bind {A B : Type} (m : M A) (f : A -> M B) :
  alike pre line m -> (forall a, alike pre line (f a)) -> alike pre line (m ≫= f).
Proof.
  intros Hm Hf sa sb R. destruct (Hm sa sb R) as [R1 E].
  rewrite !bind_run. destruct (m sa) as [sa' oa], (m sb) as [sb' ob].
  cbn [fst snd] in *. subst ob. destruct oa as [a|e].
  - now apply Hf.
  - split; [exact R1 | reflexivity].
Qed.

Lemma alike_print (s : string) : alike pre line (print s).
Proof.
  intros sa sb (Hfs & Hl & post & Ha & Hb). split; [|reflexivity].
  repeat split; cbn [print fst fs launched printed]; try assumption.
  exists (post ++ [s]). rewrite Ha, Hb. split; now rewrite <- app_assoc.
Qed.

Lemma alike_path_exists (p : string) : alike pre line (path_exists p).
Proof.
  intros sa sb R. split; [exact R|]. destruct R as (Hfs & _).
  unfold path_exists. cbn [snd]. now rewrite Hfs.
Qed.

Lemma alike_subprocess_run (args : list string) : alike pre line (subprocess_run wd args).
Proof.
  intros sa sb (Hfs & Hl & Hp). unfold subprocess_run. rewrite Hfs, Hl.
  destruct (exec_argv wd args (fs sb)); cbn [fst snd fs launched printed];
    (split; [|reflexivity]); repeat split; try reflexivity; exact Hp.
Qed.

Lemma alike_subprocess_run_shell (c : string) :
  alike pre line (subprocess_run_shell wd c).
Proof.
  intros sa sb (Hfs & Hl & Hp). unfold subprocess_run_shell. rewrite Hfs, Hl.
  destruct (exec_shell wd c (fs sb)) as [[rc err] fs'].
  cbn [fst snd fs launched printed].
  (split; [|reflexivity]); repeat split; try reflexivity; exact Hp.
Qed.

Lemma alike_if {A : Type} (b : bool) (m1 m2 : M A) :
  alike pre line m1 -> alike pre line m2 -> alike pre line (if b then m1 else m2).
Proof. now destruct b. Qed.

Lemma alike_ffprobe_size (path : string) : alike pre line (ffprobe_size rt wd path).
Proof.
  unfold ffprobe_size, check_output, subprocess_run_check, loads.
  repeat first
    [ apply alike_bind; [|intros ?]
    | apply alike_if
    | apply alike_subprocess_run
    | apply alike_const
    | match goal with |- alike _ _ (match ?x with _ => _ end) => destruct x end ].
Qed.

Lemma alike_run (c : string) : alike pre line (run wd c).
Proof.
  unfold run.
  repeat first
    [ apply alike_bind; [|intros ?]
    | apply alike_if
    | apply alike_print
    | apply alike_subprocess_run_shell
    | apply alike_const ].
Qed.

Lemma alike_composite cfg tv bp image_path out_path :
  alike pre line (composite rt wd cfg tv bp image_path out_path).
Proof.
  unfold composite.
  repeat first
    [ apply alike_ffprobe_size
    | apply alike_run
    | apply alike_print
    | apply alike_path_exists
    | apply alike_if
    | apply alike_const
    | apply alike_bind; [|intros ?] ].
Qed.
End Alike.

(** C6.  When border_png names a file that is not on disk, the border
    step prints the warning and resolves no border, and the whole run
    (result, files, launched commands) is the run of the same configuration
    without border_png; the printed lines differ by the warning alone. *)
Theorem C6_missing_border_is_warned_and_dropped rt wd
    (tdir : string) (kv : list (string * json)) (name tv : string)
    (image_path out_path : string) (st : state) :
  dict_lookup "border_png" kv = Some (JStr name) -> name <> EmptyString ->
  fs st !! joinpath rt tdir name = None ->
  template_video_path rt tdir (JObj kv) = Return tv -> is_Some (fs st !! tv) ->
  let warning :=
    "⚠️ border_png configured but missing, ignoring: " +:+ joinpath rt tdir name in
  let configured := main_with rt wd tdir (JObj kv) image_path out_path st in
  let absent :=
    main_with rt wd tdir (JObj (dict_remove "border_png" kv)) image_path out_path st in
  resolve_border rt tdir (JObj kv) st
  = ({| fs := fs st; launched := launched st; printed := printed st ++ [warning] |},
     Return None) /\
  resolve_border rt tdir (JObj (dict_remove "border_png" kv)) st = (st, Return None) /\
  snd configured = snd absent /\
  fs (fst configured) = fs (fst absent) /\
  launched (fst configured) = launched (fst absent) /\
  exists post,
    printed (fst configured) = printed st ++ warning :: post /\
    printed (fst absent) = printed st ++ post.
Proof.
  intros Hb Hname Hmiss Htv Hpres warning configured absent.
  assert (B1 : resolve_border rt tdir (JObj kv) st
               = ({| fs := fs st; launched := launched st;
                     printed := printed st ++ [warning] |}, Return None)).
  { unfold resolve_border. rewrite (py_get_found _ _ _ _ Hb).
    unfold lift, path_exists, print, mbind, M_bind, mret, M_ret. cbn [truthy].
    rewrite (proj2 (String.eqb_neq name EmptyString) Hname).
    cbn [negb as_name fmap outcome_fmap]. rewrite Hmiss.
    rewrite bool_decide_eq_false_2 by (intros [? [=]]). reflexivity. }
  assert (B2 : resolve_border rt tdir (JObj (dict_remove "border_png" kv)) st
               = (st, Return None)).
  { apply resolve_border_absent, dict_lookup_remove_eq. }
  assert (Htv' : template_video_path rt tdir (JObj (dict_remove "border_png" kv))
                 = Return tv).
  { rewrite <- Htv. unfold template_video_path.
    now rewrite (py_get_remove_ne "border_png" "template_video") by discriminate. }
  assert (Hc : composite rt wd (JObj (dict_remove "border_png" kv)) tv None
                 image_path out_path
               = composite rt wd (JObj kv) tv None image_path out_path).
  { unfold composite. now rewrite resolve_remove_border. }
  assert (Ea : configured
               = composite rt wd (JObj kv) tv None image_path out_path
                   {| fs := fs st; launched := launched st;
                      printed := printed st ++ [warning] |}).
  { unfold configured, main_with. rewrite bind_run. unfold lift at 1. rewrite Htv.
    rewrite bind_run. unfold path_exists at 1.
    rewrite bool_decide_eq_true_2 by exact Hpres. cbn [negb].
    rewrite bind_run, B1. reflexivity. }
  assert (Eb : absent = composite rt wd (JObj kv) tv None image_path out_path st).
  { unfold absent, main_with. rewrite bind_run. unfold lift at 1. rewrite Htv'.
    rewrite bind_run. unfold path_exists at 1.
    rewrite bool_decide_eq_true_2 by exact Hpres. cbn [negb].
    rewrite bind_run, B2. exact (f_equal (fun m => m st) Hc). }
  destruct (alike_composite rt wd (printed st) warning (JObj kv) tv None
              image_path out_path
              {| fs := fs st; launched := launched st;
                 printed := printed st ++ [warning] |} st)
    as [(Hfs & Hl & post & Hpa & Hpb) Hres].
  { repeat split. exists []. split; [reflexivity | now rewrite app_nil_r]. }
  rewrite Ea, Eb. repeat split; try assumption. now exists post.
Qed.

(** ** Cleaning up the temporary artifacts *)

Lemma bind_return_inv {A B : Type} (m : M A) (f : A -> M B) (st st' : state) (b : B) :
  (m ≫= f) st = (st', Return b) ->
  exists a st1, m st = (st1, Return a) /\ f a st1 = (st', Return b).
Proof.
  rewrite bind_run. destruct (m st) as [st1 [a|e]]; [eauto | discriminate].
Qed.

Lemma unlink_return_inv (p : string) (st st' : state) (u : unit) :
  unlink p st = (st', Return u) -> fs st' = delete p (fs st).
Proof. unfold unlink. now intros [= <- _]. Qed.

Section Cleanup.
Variable rt : runtime.
Variable wd : world.

Lemma concat_list_removed (intro_path main_video_path outro_path output_path : string)
    (st : state) :
  fs (fst (outro_generator.concatenate_videos_with_outro rt wd
             intro_path main_video_path outro_path output_path st))
    !! outro_generator.concat_list_path rt output_path = None.
Proof.
  unfold outro_generator.concatenate_videos_with_outro.
  cbv zeta. rewrite !bind_run. unfold write_text at 1. rewrite !bind_run.
  unfold print at 1. rewrite bind_run. unfold subprocess_run_shell at 1.
  cbn [fs launched printed].
  destruct (exec_shell wd _ _) as [[rc err] fs'].
  rewrite bind_run. unfold unlink at 1. cbn [fs launched printed fst snd].
  destruct (rc =? 0); cbn [negb]; unfold raise, print; rewrite ?bind_run;
    cbn [fst fs mret M_ret]; apply lookup_delete_eq.
Qed.

(** X18.  When [render_video] returns, the value is the final output path
    and the intro, main and outro clips and the concat list are gone from
    the file system; the concat list is gone after
    [concatenate_videos_with_outro] on every path, the failing one
    included.  Removing a file that is not there is not an error. *)
Theorem clips_removed_on_success_list_always
    (template_folder image_path output_name customer_name : string)
    (st st' : state) (p : string) :
  render_video rt wd template_folder image_path output_name customer_name st
  = (st', Return p) ->
  (p = final_output rt wd output_name /\
   fs st' !! intro_clip rt wd = None /\
   fs st' !! main_clip rt wd = None /\
   fs st' !! outro_clip rt wd = None /\
   fs st' !! outro_generator.concat_list_path rt (final_output rt wd output_name)
   = None) /\
  (forall a b c o s,
      fs (fst (outro_generator.concatenate_videos_with_outro rt wd a b c o s))
        !! outro_generator.concat_list_path rt o = None).
Proof.
  intros H. split; [|intros; apply concat_list_removed].
  unfold render_video, try_except in H. cbv zeta in H.
  match type of H with
  | match ?body with _ => _ end = _ => destruct body as [st0 [p0|e]] eqn:E
  end.
  2:{ destruct (is_Exception e); discriminate H. }
  injection H as -> ->.
  apply bind_return_inv in E as (tv1 & s1 & _ & E).
  apply bind_return_inv in E as (? & s2 & _ & E).
  apply bind_return_inv in E as (? & s3 & _ & E).
  apply bind_return_inv in E as (tv2 & s4 & _ & E).
  apply bind_return_inv in E as (? & s5 & _ & E).
  apply bind_return_inv in E as (? & s6 & Hcat & E).
  apply bind_return_inv in E as (? & s7 & U1 & E).
  apply bind_return_inv in E as (? & s8 & U2 & E).
  apply bind_return_inv in E as (? & s9 & U3 & E).
  apply bind_return_inv in E as (? & s10 & U4 & E).
  injection E as <- <-.
  apply unlink_return_inv in U1, U2, U3, U4.
  pose proof (concat_list_removed (intro_clip rt wd) (main_clip rt wd) (outro_clip rt wd)
                (final_output rt wd output_name) s5) as Hlist.
  rewrite Hcat in Hlist. cbn [fst] in Hlist.
  rewrite U4, U3, U2, U1.
  split; [reflexivity|].
  repeat split; rewrite !lookup_delete_None; auto 10.
Qed.
End Cleanup.


(** C9.  The failure path does not clean up: when the concatenation
    command fails, [render_video] raises and the intro, main and outro
    clips are still on disk; only the concat list has been removed.  The
    clips are unlinked at the end of the [try] block only, and the handler
    re-raises. *)
Theorem C9_failed_concatenation_leaves_clips :
  snd (render_video demo_rt failing_concat_wd "t1" "photo.jpg" "birthday" "Ann"
         (empty_state demo_files_with_photo))
  = Raise (Exception "Rendering failed: error") /\
  fs (fst (render_video demo_rt failing_concat_wd "t1" "photo.jpg" "birthday" "Ann"
             (empty_state demo_files_with_photo)))
    !! intro_clip demo_rt failing_concat_wd = Some "video" /\
  fs (fst (render_video demo_rt failing_concat_wd "t1" "photo.jpg" "birthday" "Ann"
             (empty_state demo_files_with_photo)))
    !! main_clip demo_rt failing_concat_wd = Some "video" /\
  fs (fst (render_video demo_rt failing_concat_wd "t1" "photo.jpg" "birthday" "Ann"
             (empty_state demo_files_with_photo)))
    !! outro_clip demo_rt failing_concat_wd = Some "video".
Proof. repeat split; vm_compute; reflexivity. Qed.

(** ** A run of [main] on a template without a video stream *)

Example main_without_stream :
  main demo_rt no_stream_wd "templates/t1" "photo.jpg" "out/video.mp4"
    (empty_state demo_files_with_photo)
  = ({| fs := demo_files_with_photo;
        launched := version_checks ++ [Argv (ffprobe_cmd "templates/t1/template.mp4")];
        printed := [] |},
     Raise (SystemExit "❌ Could not read video size from: templates/t1/template.mp4")).
Proof. vm_compute. reflexivity. Qed.

(** ** The theorems at concrete inputs *)

Lemma C4_defaults_witness :
  resolve demo_rt demo_cfg = Return cover_request /\
  lookup_path ["fit"] demo_cfg = None /\
  fit cover_request = "cover".
Proof.
  split; [reflexivity|]. split; [reflexivity|].
  apply (C4_defaults demo_rt demo_cfg cover_request eq_refl). reflexivity.
Defined.

Lemma C5_missing_image_witness :
  fs (empty_state demo_files) !! Path demo_rt "photo.jpg" = None /\
  exists e st',
    main demo_rt demo_wd "templates/t1" "photo.jpg" "out/video.mp4"
      (empty_state demo_files) = (st', Raise e) /\
    fs st' = demo_files.
Proof.
  split; [vm_compute; reflexivity|].
  destruct (C5_missing_image_runs_no_probe_no_encode demo_rt demo_wd
              "templates/t1" "photo.jpg" "out/video.mp4" (empty_state demo_files)
              ltac:(vm_compute; reflexivity)) as (e & st' & H1 & H2 & _).
  exists e, st'. split; [exact H1 | exact H2].
Defined.

Lemma C6_missing_border_witness :
  (dict_lookup "border_png" full_kv = Some (JStr "border.png") /\
   "border.png" <> EmptyString /\
   fs (empty_state demo_files_no_border) !! joinpath demo_rt "templates/t2" "border.png"
   = None /\
   template_video_path demo_rt "templates/t2" (JObj full_kv)
   = Return "templates/t2/clip.mp4" /\
   is_Some (fs (empty_state demo_files_no_border) !! "templates/t2/clip.mp4")) /\
  resolve_border demo_rt "templates/t2" (JObj (dict_remove "border_png" full_kv))
    (empty_state demo_files_no_border)
  = (empty_state demo_files_no_border, Return None).
Proof.
  assert (P : is_Some (fs (empty_state demo_files_no_border) !! "templates/t2/clip.mp4"))
    by (exists "footage"; vm_compute; reflexivity).
  split; [repeat split; try discriminate; try exact P; vm_compute; reflexivity|].
  apply (C6_missing_border_is_warned_and_dropped demo_rt demo_wd "templates/t2"
           full_kv "border.png" "templates/t2/clip.mp4" "photo.jpg" "out/video.mp4"
           (empty_state demo_files_no_border)
           eq_refl ltac:(discriminate) ltac:(vm_compute; reflexivity) eq_refl P).
Defined.

Lemma C7_probe_witness :
  (exec_argv no_stream_wd (ffprobe_cmd "templates/t1/template.mp4")
     (fs (empty_state demo_files)) = Some (0, "NOSTREAM") /\
   json_loads demo_rt "NOSTREAM" = Some (JObj [("streams", JArr [])])) /\
  intro_generator.get_video_dimensions demo_rt no_stream_wd "templates/t1/template.mp4"
    (empty_state demo_files)
  = (probed (empty_state demo_files) "templates/t1/template.mp4", Return (1080, 1920)).
Proof.
  split; [split; reflexivity|].
  apply (C7_probe_without_stream demo_rt no_stream_wd "templates/t1/template.mp4"
           (empty_state demo_files) 0 "NOSTREAM" [("streams", JArr [])]
           eq_refl eq_refl (or_intror eq_refl)).
Defined.

Lemma C8_explicit_values_witness :
  resolve demo_rt full_cfg = Return full_request /\
  chroma_hex full_request = remove_char "#" (lower "00FF00") /\
  fps full_request = 25.
Proof.
  split; [reflexivity|].
  pose proof (C8_explicit_values_kept_or_normalised demo_rt full_cfg full_request eq_refl)
    as (_ & _ & _ & _ & Hhex & _ & _ & _ & Hfps & _).
  split; [exact (Hhex "00FF00" eq_refl) | exact (Hfps 25 eq_refl)].
Defined.

Lemma clips_removed_on_success_witness :
  snd (render_video demo_rt demo_wd "t1" "photo.jpg" "birthday" "Ann"
         (empty_state demo_files_with_photo))
  = Return "output/birthday_20240101_120000.mp4" /\
  fs (fst (render_video demo_rt demo_wd "t1" "photo.jpg" "birthday" "Ann"
             (empty_state demo_files_with_photo)))
    !! intro_clip demo_rt demo_wd = None.
Proof.
  assert (H : render_video demo_rt demo_wd "t1" "photo.jpg" "birthday" "Ann"
                (empty_state demo_files_with_photo)
              = (fst (render_video demo_rt demo_wd "t1" "photo.jpg" "birthday" "Ann"
                        (empty_state demo_files_with_photo)),
                 Return "output/birthday_20240101_120000.mp4"))
    by (vm_compute; reflexivity).
  split; [vm_compute; reflexivity|].
  pose proof (clips_removed_on_success_list_always demo_rt demo_wd
                "t1" "photo.jpg" "birthday" "Ann" _ _ _ H) as [(_ & Hintro & _) _].
  exact Hintro.
Defined.

Lemma C10_unknown_fit_witness :
  (dict_lookup "fit" misspelt_kv = Some (JStr "Covr") /\ lower "Covr" <> "contain") /\
  img_chain (lower "Covr") 800 800 = img_chain "cover" 800 800.
Proof.
  split; [split; [reflexivity | discriminate]|].
  apply (C10_unknown_fit_plans_cover demo_rt misspelt_kv "Covr" eq_refl
           ltac:(discriminate)).
Defined.

(** * Further properties of the pipeline *)

Section Traces.
Variable rt : runtime.
Variable wd : world.

Lemma stateless_bind {A B : Type} (m : M A) (f : A -> M B) :
  stateless m -> (forall a, stateless (f a)) -> stateless (m ≫= f).
Proof.
  intros Hm Hf st. rewrite bind_run. specialize (Hm st).
  destruct (m st) as [st1 [a|e]]; cbn [fst] in *; subst st1; [apply Hf | reflexivity].
Qed.

Lemma stateless_const {A : Type} (o : outcome A) : stateless (fun st => (st, o)).
Proof. intros st. reflexivity. Qed.

Lemma stateless_if {A : Type} (b : bool) (m1 m2 : M A) :
  stateless m1 -> stateless m2 -> stateless (if b then m1 else m2).
Proof. now destruct b. Qed.

Lemma stateless_loads (txt : string) : stateless (loads rt txt).
Proof. unfold loads. destruct (json_loads rt txt); apply stateless_const. Qed.

Lemma bind_stateless_state {A B : Type} (m : M A) (f : A -> M B) (st : state) :
  (forall a, stateless (f a)) -> fst ((m ≫= f) st) = fst (m st).
Proof.
  intros Hf. rewrite bind_run. destruct (m st) as [st1 [a|e]]; [apply Hf | reflexivity].
Qed.

Lemma subprocess_run_state (args : list string) (st : state) :
  fst (subprocess_run wd args st) = launch st [Argv args].
Proof. unfold subprocess_run. now destruct (exec_argv wd args (fs st)). Qed.

Lemma check_output_state (args : list string) (st : state) :
  fst (check_output wd args st) = launch st [Argv args].
Proof.
  unfold check_output, subprocess_run_check.
  rewrite !bind_stateless_state; [apply subprocess_run_state| |].
  - intros r. apply stateless_if; apply stateless_const.
  - intros r. apply stateless_const.
Qed.

Lemma ffprobe_size_state (path : string) (st : state) :
  fst (ffprobe_size rt wd path st) = probed st path.
Proof.
  unfold ffprobe_size. rewrite bind_stateless_state; [apply check_output_state|].
  intros out.
  apply stateless_bind; [apply stateless_loads|]. intros data.
  apply stateless_bind; [apply stateless_const|]. intros streams.
  apply stateless_if; [apply stateless_const|].
  apply stateless_bind; [apply stateless_const|]. intros vw.
  apply stateless_bind; [apply stateless_const|]. intros vh.
  apply stateless_const.
Qed.

Lemma composite_runs (cfg : json) (tv : string) (bp : option string)
    (image_path out_path : string) (st : state) :
  exists st' o,
    composite rt wd cfg tv bp image_path out_path st = (st', o) /\
    ((st' = st /\ exists e, o = Raise e) \/
     (st' = probed st tv /\ exists e, o = Raise e) \/
     encoded rt wd cfg tv bp image_path out_path st st' o).
Proof.
  unfold composite. rewrite bind_run. unfold lift at 1.
  destruct (resolve rt cfg) as [r|e] eqn:Er.
  2:{ eexists _, _. split; [reflexivity|]. left. eauto. }
  rewrite bind_run. unfold path_exists at 1.
  destruct (bool_decide (is_Some (fs st !! Path rt image_path))) eqn:Ei; cbn [negb].
  2:{ eexists _, _. split; [reflexivity|]. left. split; [reflexivity|]. unfold raise. eauto. }
  apply bool_decide_eq_true_1 in Ei.
  rewrite bind_run.
  pose proof (ffprobe_size_state tv st) as Hst.
  destruct (ffprobe_size rt wd tv st) as [st1 [[cw ch]|e]] eqn:Ep; cbn [fst] in Hst; subst st1.
  2:{ eexists _, _. split; [reflexivity|]. right. left. eauto. }
  cbn [fst snd]. rewrite bind_run. unfold run. rewrite !bind_run.
  unfold print at 1. rewrite bind_run. unfold subprocess_run_shell at 1.
  cbn [fs launched printed probed].
  set (c := cmd rt r bp cw ch tv (Path rt image_path) (Path rt out_path)).
  destruct (exec_shell wd c (fs st)) as [[rc err] fs'] eqn:Ex.
  cbn [fst].
  destruct (rc =? 0) eqn:Hrc; cbn [negb]; unfold raise, print, mret, M_ret;
    cbn [fs launched printed];
    (eexists _, _; split; [reflexivity|]; right; right;
     exists r, cw, ch; split; [exact Er|]; split; [exact Ei|]; split; [exact Ep|];
     cbv zeta; fold c; rewrite Ex; cbn [fst snd]; rewrite Hrc, <- ?app_assoc;
     split; reflexivity).
Qed.

Lemma ensure_ffmpeg_eq (st : state) :
  ensure_ffmpeg wd st
  = if tool_ok wd ["ffmpeg"; "-version"] (fs st) then
      if tool_ok wd ["ffprobe"; "-version"] (fs st) then
        (launch st version_checks, Return ())
      else (launch st version_checks, Raise ffmpeg_missing_exit)
    else (launch st [Argv ["ffmpeg"; "-version"]], Raise ffmpeg_missing_exit).
Proof.
  unfold ensure_ffmpeg, try_except, subprocess_run_check, subprocess_run, raise,
    tool_ok, launch, version_checks, ffmpeg_missing_exit.
  unfold mbind, M_bind, mret, M_ret. run_cbn.
  destruct (exec_argv wd ["ffmpeg"; "-version"] (fs st)) as [[rc1 o1]|]; run_cbn;
    [|reflexivity].
  destruct (rc1 =? 0); run_cbn; [|reflexivity].
  destruct (exec_argv wd ["ffprobe"; "-version"] (fs st)) as [[rc2 o2]|]; run_cbn.
  - destruct (rc2 =? 0); run_cbn; now rewrite <- app_assoc.
  - now rewrite <- app_assoc.
Qed.

Lemma main_with_runs (tdir : string) (cfg : json) (image_path out_path : string)
    (st : state) :
  exists st' o,
    main_with rt wd tdir cfg image_path out_path st = (st', o) /\
    ((fs st' = fs st /\ launched st' = launched st /\ exists e, o = Raise e) \/
     (exists tv, fs st' = fs st /\
                 launched st' = launched st ++ [Argv (ffprobe_cmd tv)] /\
                 exists e, o = Raise e) \/
     (exists tv bp st1,
         template_video_path rt tdir cfg = Return tv /\
         is_Some (fs st !! tv) /\
         resolve_border rt tdir cfg st = (st1, Return bp) /\
         encoded rt wd cfg tv bp image_path out_path st1 st' o)).
Proof.
  unfold main_with. rewrite bind_run. unfold lift at 1.
  destruct (template_video_path rt tdir cfg) as [tv|e] eqn:Etv.
  2:{ eexists _, _. split; [reflexivity|]. left. eauto. }
  rewrite bind_run. unfold path_exists at 1.
  destruct (bool_decide (is_Some (fs st !! tv))) eqn:Ep; cbn [negb].
  2:{ eexists _, _. split; [reflexivity|]. left. unfold raise. eauto. }
  apply bool_decide_eq_true_1 in Ep.
  rewrite bind_run.
  destruct (resolve_border_runs rt tdir cfg st) as (st1 & ob & Eb & Hfs & Hl & _).
  rewrite Eb. destruct ob as [bp|e].
  2:{ eexists _, _. split; [reflexivity|]. left. eauto. }
  destruct (composite_runs cfg tv bp image_path out_path st1)
    as (st' & o & -> & [[-> He] | [[-> He] | Henc]]).
  - eexists _, _. split; [reflexivity|]. left. auto.
  - eexists _, _. split; [reflexivity|]. right. left. exists tv.
    cbn [probed fs launched]. rewrite Hl. auto.
  - eexists _, _. split; [reflexivity|]. right. right. exists tv, bp, st1. auto.
Qed.

Lemma main_runs (template_folder image_path out_path : string) (st : state) :
  exists st' o,
    main rt wd template_folder image_path out_path st = (st', o) /\
    ((st' = launch st [Argv ["ffmpeg"; "-version"]] /\ o = Raise ffmpeg_missing_exit) \/
     (fs st' = fs st /\ launched st' = launched st ++ version_checks /\
      exists e, o = Raise e) \/
     (exists tv, fs st' = fs st /\
                 launched st' = launched st ++ version_checks ++ [Argv (ffprobe_cmd tv)] /\
                 exists e, o = Raise e) \/
     (exists txt cfg tv bp st1,
         fs st !! joinpath rt (Path rt template_folder) "template.json" = Some txt /\
         json_loads rt txt = Some cfg /\
         template_video_path rt (Path rt template_folder) cfg = Return tv /\
         is_Some (fs st !! tv) /\
         resolve_border rt (Path rt template_folder) cfg (launch st version_checks)
         = (st1, Return bp) /\
         encoded rt wd cfg tv bp image_path out_path st1 st' o)).
Proof.
  unfold main. rewrite bind_run, ensure_ffmpeg_eq.
  destruct (tool_ok wd ["ffmpeg"; "-version"] (fs st)).
  2:{ eexists _, _. split; [reflexivity|]. left. auto. }
  destruct (tool_ok wd ["ffprobe"; "-version"] (fs st)).
  2:{ eexists _, _. split; [reflexivity|]. right. left. unfold ffmpeg_missing_exit. eauto. }
  set (st0 := launch st version_checks).
  rewrite bind_run. unfold path_exists at 1. change (fs st0) with (fs st).
  destruct (fs st !! joinpath rt (Path rt template_folder) "template.json")
    as [txt|] eqn:Ecfg.
  2:{ rewrite bool_decide_eq_false_2 by (intros [? [=]]). cbn [negb].
      eexists _, _. split; [reflexivity|]. right. left. unfold raise. eauto. }
  rewrite bool_decide_eq_true_2 by eauto. cbn [negb].
  rewrite bind_run. unfold read_text at 1. change (fs st0) with (fs st). rewrite Ecfg.
  rewrite bind_run. unfold loads at 1.
  destruct (json_loads rt txt) as [cfg|] eqn:Ej.
  2:{ eexists _, _. split; [reflexivity|]. right. left. unfold raise. eauto. }
  unfold mret, M_ret.
  destruct (main_with_runs (Path rt template_folder) cfg image_path out_path st0)
    as (st' & o & -> & [(Hfs & Hl & He) | [(tv & Hfs & Hl & He) | Henc]]).
  - eexists _, _. split; [reflexivity|]. right. left. auto.
  - eexists _, _. split; [reflexivity|]. right. right. left. exists tv.
    rewrite Hl. cbn [st0 launch launched]. rewrite <- app_assoc. auto.
  - destruct Henc as (tv & bp & st1 & Htv & Hp & Hb & Henc).
    eexists _, _. split; [reflexivity|]. right. right. right.
    exists txt, cfg, tv, bp, st1. auto 10.
Qed.
End Traces.

Lemma tool_ok_true (wd : world) (args : list string) (files : gmap string string) :
  tool_ok wd args files = true <-> exists out, exec_argv wd args files = Some (0, out).
Proof.
  unfold tool_ok. destruct (exec_argv wd args files) as [[rc out]|].
  - split.
    + intros H. apply Z.eqb_eq in H. subst rc. eauto.
    + intros [out' [= -> _]]. reflexivity.
  - split; [discriminate | intros [? [=]]].
Qed.

(** X1.  [ensure_ffmpeg] returns exactly when both version checks find
    their tool and get status 0; every other case (a missing executable or
    a non-zero status, of either tool) ends in the same exit; the check of
    ffprobe is not started when the check of ffmpeg failed; files and
    printed lines are never touched. *)
Theorem ensure_ffmpeg_outcome (wd : world) (st : state) :
  (snd (ensure_ffmpeg wd st) = Return () <->
   tool_ok wd ["ffmpeg"; "-version"] (fs st) = true /\
   tool_ok wd ["ffprobe"; "-version"] (fs st) = true) /\
  (snd (ensure_ffmpeg wd st) = Return () \/
   snd (ensure_ffmpeg wd st) = Raise ffmpeg_missing_exit) /\
  fst (ensure_ffmpeg wd st)
  = launch st (if tool_ok wd ["ffmpeg"; "-version"] (fs st)
               then version_checks else [Argv ["ffmpeg"; "-version"]]).
Proof.
  rewrite ensure_ffmpeg_eq.
  destruct (tool_ok wd ["ffmpeg"; "-version"] (fs st));
    destruct (tool_ok wd ["ffprobe"; "-version"] (fs st)); cbn [fst snd];
    (split; [split; [try discriminate; auto | intros [? ?]; try discriminate; auto]|]);
    auto.
Qed.

(** X2.  Whatever happens, [main] launches its commands in one fixed
    order and at most one encode: the ffmpeg check, the ffprobe check, the
    media probe, the encode.  It changes no file before the encode, it
    fails whenever it stops before the encode, and once the encode has run
    its outcome is the encode's exit status: a normal return for 0 and
    [SystemExit(status)] otherwise. *)
Theorem main_launch_discipline rt wd
    (template_folder image_path out_path : string) (st : state) :
  exists st' o l,
    main rt wd template_folder image_path out_path st = (st', o) /\
    launched st' = launched st ++ l /\
    ((l = [Argv ["ffmpeg"; "-version"]] /\ fs st' = fs st /\ exists e, o = Raise e) \/
     (l = version_checks /\ fs st' = fs st /\ exists e, o = Raise e) \/
     (exists tv, l = version_checks ++ [Argv (ffprobe_cmd tv)] /\
                 fs st' = fs st /\ exists e, o = Raise e) \/
     (exists tv c,
         l = version_checks ++ [Argv (ffprobe_cmd tv); Shell c] /\
         fs st' = snd (exec_shell wd c (fs st)) /\
         o = if fst (fst (exec_shell wd c (fs st))) =? 0 then Return ()
             else Raise (SystemExitCode (fst (fst (exec_shell wd c (fs st))))))).
Proof.
  destruct (main_runs rt wd template_folder image_path out_path st)
    as (st' & o & E & [[-> ->] | [(Hfs & Hl & He) | [(tv & Hfs & Hl & He) | H]]]).
  - eexists _, _, _. split; [exact E|]. split; [reflexivity|]. left.
    unfold ffmpeg_missing_exit. eauto.
  - eexists _, _, _. split; [exact E|]. split; [exact Hl|]. right. left. auto.
  - eexists _, _, _. split; [exact E|]. split; [exact Hl|]. right. right. left. eauto.
  - destruct H as (txt & cfg & tv & bp & st1 & _ & _ & _ & _ & Hb & Henc).
    destruct (resolve_border_runs rt (Path rt template_folder) cfg
                (launch st version_checks)) as (st1' & ob & Eb & Hfs1 & Hl1 & _).
    rewrite Hb in Eb. injection Eb as <- <-.
    destruct Henc as (r & cw & ch & _ & _ & _ & Hst & Ho). cbv zeta in Hst, Ho.
    cbn [launch fs launched] in Hfs1, Hl1. rewrite Hfs1 in Hst, Ho.
    eexists _, _, _. split; [exact E|]. split.
    + rewrite Hst. cbn [launched]. rewrite Hl1, <- app_assoc. reflexivity.
    + right. right. right. eexists tv, _. split; [reflexivity|].
      split; [rewrite Hst; reflexivity | exact Ho].
Qed.

(** X3.  [main] returns normally only if everything was in place and the
    encode succeeded: template.json was read and parsed, the template video
    and the customer image were on disk, the configuration resolved, the
    commands launched are the two checks, the probe and the one encode
    built by the planner from these values, the encode ended with status 0,
    and the last line printed is the rendered message. *)
Theorem main_returns_after_successful_encode rt wd
    (template_folder image_path out_path : string) (st st' : state) :
  main rt wd template_folder image_path out_path st = (st', Return ()) ->
  exists txt cfg tv bp r cw ch,
    fs st !! joinpath rt (Path rt template_folder) "template.json" = Some txt /\
    json_loads rt txt = Some cfg /\
    template_video_path rt (Path rt template_folder) cfg = Return tv /\
    is_Some (fs st !! tv) /\
    is_Some (fs st !! Path rt image_path) /\
    resolve rt cfg = Return r /\
    snd (resolve_border rt (Path rt template_folder) cfg st) = Return bp /\
    let c := cmd rt r bp cw ch tv (Path rt image_path) (Path rt out_path) in
    launched st' = launched st ++ version_checks ++ [Argv (ffprobe_cmd tv); Shell c] /\
    fst (fst (exec_shell wd c (fs st))) = 0 /\
    fs st' = snd (exec_shell wd c (fs st)) /\
    last (printed st') = Some ("✅ Rendered: " +:+ Path rt out_path).
Proof.
  intros Hmain.
  destruct (main_runs rt wd template_folder image_path out_path st)
    as (st2 & o & E & H).
  rewrite Hmain in E. injection E as <- <-.
  destruct H as [[_ [=]] | [(_ & _ & ? & [=]) | [(? & _ & _ & ? & [=]) | H]]].
  destruct H as (txt & cfg & tv & bp & st1 & Hcfg & Hj & Htv & Hp & Hb & Henc).
  destruct Henc as (r & cw & ch & Hr & Hi & _ & Hst & Ho). cbv zeta in Hst, Ho.
  assert (Hsame : fs st1 = fs st /\ launched st1 = launched st ++ version_checks).
  { destruct (resolve_border_runs rt (Path rt template_folder) cfg
                (launch st version_checks)) as (s & ob & Eb & Hfs1 & Hl1 & _).
    rewrite Hb in Eb. injection Eb as <- <-. auto. }
  destruct Hsame as [Hfs1 Hl1]. rewrite Hfs1 in Hst, Ho, Hi.
  assert (Hbp : snd (resolve_border rt (Path rt template_folder) cfg st) = Return bp).
  { clear - Hb. unfold resolve_border in *. rewrite bind_run in *. unfold lift in *.
    destruct (py_get cfg "border_png" JNull) as [v|]; [|discriminate Hb].
    destruct (truthy v); [|now injection Hb as _ <-].
    rewrite bind_run in *. destruct (joinpath rt (Path rt template_folder) <$> as_name v)
      as [p|]; [|discriminate Hb].
    rewrite bind_run in *. unfold path_exists in *. cbn [launch fs] in Hb.
    destruct (bool_decide (is_Some (fs st !! p))); cbn [negb] in *;
      [now injection Hb as _ <-|].
    rewrite bind_run in *. unfold print in *. now injection Hb as _ <-. }
  exists txt, cfg, tv, bp, r, cw, ch.
  repeat (split; [assumption|]). cbv zeta.
  destruct (fst (fst (exec_shell wd _ (fs st))) =? 0) eqn:Hrc; [|discriminate Ho].
  apply Z.eqb_eq in Hrc. rewrite Hst. cbn [launched fs printed].
  split; [rewrite Hl1, <- app_assoc; reflexivity|].
  split; [exact Hrc|]. split; [reflexivity|].
  rewrite app_assoc. apply last_snoc.
Qed.

(** X4.  With both tools present and no template.json in the template
    folder, [main] stops right after the two version checks with the
    template.json exit: nothing is read, probed or encoded, whatever the
    other arguments are. *)
Theorem main_missing_config rt wd
    (template_folder image_path out_path : string) (st : state) :
  tool_ok wd ["ffmpeg"; "-version"] (fs st) = true ->
  tool_ok wd ["ffprobe"; "-version"] (fs st) = true ->
  fs st !! joinpath rt (Path rt template_folder) "template.json" = None ->
  main rt wd template_folder image_path out_path st
  = (launch st version_checks,
     Raise (SystemExit ("❌ template.json not found in: " +:+ Path rt template_folder))).
Proof.
  intros H1 H2 Hcfg. unfold main. rewrite bind_run, ensure_ffmpeg_eq, H1, H2.
  rewrite bind_run. unfold path_exists at 1.
  change (fs (launch st version_checks)) with (fs st). rewrite Hcfg.
  rewrite bool_decide_eq_false_2 by (intros [? [=]]). reflexivity.
Qed.

(** X5.  The template video is checked before the configuration is
    validated and before the customer image is looked at: when the file
    named by template_video (template.mp4 when the key is absent) is not on
    disk, [main] stops with the template-video exit after the version
    checks, even if the placeholder is missing or the image does not
    exist. *)
Theorem main_missing_template_video rt wd
    (template_folder image_path out_path : string) (st : state)
    (txt : string) (kv : list (string * json)) (tv : string) :
  tool_ok wd ["ffmpeg"; "-version"] (fs st) = true ->
  tool_ok wd ["ffprobe"; "-version"] (fs st) = true ->
  fs st !! joinpath rt (Path rt template_folder) "template.json" = Some txt ->
  json_loads rt txt = Some (JObj kv) ->
  tv = joinpath rt (Path rt template_folder)
         match dict_lookup "template_video" kv with
         | Some (JStr name) => name
         | _ => "template.mp4"
         end ->
  (forall v, dict_lookup "template_video" kv = Some v -> exists name, v = JStr name) ->
  fs st !! tv = None ->
  main rt wd template_folder image_path out_path st
  = (launch st version_checks,
     Raise (SystemExit ("❌ template video not found: " +:+ tv))).
Proof.
  intros H1 H2 Hcfg Hj -> Hstr Htv. unfold main.
  rewrite bind_run, ensure_ffmpeg_eq, H1, H2.
  set (st0 := launch st version_checks).
  rewrite bind_run. unfold path_exists at 1. change (fs st0) with (fs st).
  rewrite Hcfg, bool_decide_eq_true_2 by eauto. cbn [negb].
  rewrite bind_run. unfold read_text at 1. change (fs st0) with (fs st). rewrite Hcfg.
  rewrite bind_run. unfold loads at 1. rewrite Hj. unfold mret at 1, M_ret at 1.
  assert (Ht : template_video_path rt (Path rt template_folder) (JObj kv)
               = Return (joinpath rt (Path rt template_folder)
                           match dict_lookup "template_video" kv with
                           | Some (JStr name) => name
                           | _ => "template.mp4"
                           end)).
  { unfold template_video_path, py_get.
    destruct (dict_lookup "template_video" kv) as [v|] eqn:E; [|reflexivity].
    destruct (Hstr v eq_refl) as [name ->]. reflexivity. }
  unfold main_with. rewrite bind_run. unfold lift at 1. rewrite Ht.
  rewrite bind_run. unfold path_exists at 1. change (fs st0) with (fs st).
  rewrite Htv, bool_decide_eq_false_2 by (intros [? [=]]). reflexivity.
Qed.


Lemma py_item_missing k kv :
  dict_lookup k kv = None -> py_item (JObj kv) k = Raise (KeyError k).
Proof. intros E. unfold py_item. now rewrite E. Qed.

Lemma py_item_found k kv v :
  dict_lookup k kv = Some v -> py_item (JObj kv) k = Return v.
Proof. intros E. unfold py_item. now rewrite E. Qed.

(** X6.  The placeholder has no default: a configuration without the
    placeholder key, or whose placeholder lacks one of x, y, w, h (the
    earlier ones being integers), does not resolve and raises the
    [KeyError] of the first missing key. *)
Theorem resolve_requires_placeholder rt (kv ph : list (string * json)) :
  (dict_lookup "placeholder" kv = None ->
   resolve rt (JObj kv) = Raise (KeyError "placeholder")) /\
  (dict_lookup "placeholder" kv = Some (JObj ph) ->
   (dict_lookup "x" ph = None -> resolve rt (JObj kv) = Raise (KeyError "x")) /\
   (forall vx, dict_lookup "x" ph = Some (JInt vx) ->
      (dict_lookup "y" ph = None -> resolve rt (JObj kv) = Raise (KeyError "y")) /\
      (forall vy, dict_lookup "y" ph = Some (JInt vy) ->
         (dict_lookup "w" ph = None -> resolve rt (JObj kv) = Raise (KeyError "w")) /\
         (forall vw, dict_lookup "w" ph = Some (JInt vw) ->
            dict_lookup "h" ph = None ->
            resolve rt (JObj kv) = Raise (KeyError "h"))))).
Proof.
  split.
  - intros E. unfold resolve. now rewrite (py_item_missing _ _ E).
  - intros E. unfold resolve. rewrite (py_item_found _ _ _ E).
    cbn [mbind outcome_bind]. split.
    + intros Ex. now rewrite (py_item_missing _ _ Ex).
    + intros vx Ex. rewrite (py_item_found _ _ _ Ex). cbn [mbind outcome_bind py_int].
      split.
      * intros Ey. now rewrite (py_item_missing _ _ Ey).
      * intros vy Ey. rewrite (py_item_found _ _ _ Ey). cbn [mbind outcome_bind py_int].
        split.
        -- intros Ew. now rewrite (py_item_missing _ _ Ew).
        -- intros vw Ew Eh. rewrite (py_item_found _ _ _ Ew).
           cbn [mbind outcome_bind py_int]. now rewrite (py_item_missing _ _ Eh).
Qed.

Lemma py_get_lookup kv k d :
  py_get (JObj kv) k d = Return (default d (dict_lookup k kv)).
Proof. reflexivity. Qed.

Lemma resolve_remove_other rt k kv :
  k <> "placeholder" -> k <> "chroma" -> k <> "fit" -> k <> "output" ->
  resolve rt (JObj (dict_remove k kv)) = resolve rt (JObj kv).
Proof.
  intros H1 H2 H3 H4. unfold resolve.
  rewrite (py_item_remove_ne k "placeholder"), (py_get_remove_ne k "chroma"),
    (py_get_remove_ne k "fit"), (py_get_remove_ne k "output") by assumption.
  reflexivity.
Qed.

(** X7.  [main] reads six keys of template.json and no other: removing
    every binding of any other key from the configuration changes nothing
    in what [main] does once the configuration is loaded. *)
Theorem main_ignores_other_keys rt wd (tdir : string) (kv : list (string * json))
    (k : string) (image_path out_path : string) :
  k ∉ ["template_video"; "border_png"; "placeholder"; "chroma"; "fit"; "output"] ->
  main_with rt wd tdir (JObj (dict_remove k kv)) image_path out_path
  = main_with rt wd tdir (JObj kv) image_path out_path.
Proof.
  intros Hk.
  assert (H1 : k <> "template_video") by (intros ->; apply Hk; set_solver).
  assert (H2 : k <> "border_png") by (intros ->; apply Hk; set_solver).
  assert (H3 : k <> "placeholder") by (intros ->; apply Hk; set_solver).
  assert (H4 : k <> "chroma") by (intros ->; apply Hk; set_solver).
  assert (H5 : k <> "fit") by (intros ->; apply Hk; set_solver).
  assert (H6 : k <> "output") by (intros ->; apply Hk; set_solver).
  unfold main_with, template_video_path, resolve_border, composite.
  rewrite (py_get_remove_ne k "template_video"), (py_get_remove_ne k "border_png")
    by assumption.
  now rewrite resolve_remove_other.
Qed.

Lemma ascii_lower_idem (c : ascii) : ascii_lower (ascii_lower c) = ascii_lower c.
Proof. destruct c as [[] [] [] [] [] [] [] []]; reflexivity. Qed.

Lemma ascii_lower_hash (c : ascii) : Ascii.eqb "#" (ascii_lower c) = Ascii.eqb "#" c.
Proof. destruct c as [[] [] [] [] [] [] [] []]; reflexivity. Qed.

Lemma lower_idem (s : string) : lower (lower s) = lower s.
Proof.
  induction s as [|c s IH]; [reflexivity|].
  cbn [lower]. now rewrite ascii_lower_idem, IH.
Qed.

Lemma remove_char_idem (c : ascii) (s : string) :
  remove_char c (remove_char c s) = remove_char c s.
Proof.
  induction s as [|d s IH]; [reflexivity|].
  cbn [remove_char]. destruct (Ascii.eqb c d) eqn:E; [exact IH|].
  cbn [remove_char]. now rewrite E, IH.
Qed.

Lemma lower_remove_hash (s : string) :
  lower (remove_char "#" s) = remove_char "#" (lower s).
Proof.
  induction s as [|d s IH]; [reflexivity|].
  cbn [remove_char lower]. rewrite ascii_lower_hash.
  destruct (Ascii.eqb "#" d); [exact IH|]. cbn [lower]. now rewrite IH.
Qed.

Lemma remove_char_gone (c : ascii) (s : string) :
  existsb (Ascii.eqb c) (list_ascii_of_string (remove_char c s)) = false.
Proof.
  induction s as [|d s IH]; [reflexivity|].
  cbn [remove_char]. destruct (Ascii.eqb c d) eqn:E; [exact IH|].
  cbn [list_ascii_of_string existsb]. now rewrite E, IH.
Qed.

Lemma ascii_lower_is_ascii (c : ascii) :
  is_ascii c = true -> is_ascii (ascii_lower c) = true.
Proof. destruct c as [[] [] [] [] [] [] [] []]; intros H; try reflexivity; discriminate H. Qed.

Lemma lower_ascii_text (s : string) : ascii_text s = true -> ascii_text (lower s) = true.
Proof.
  unfold ascii_text. induction s as [|c s IH]; [reflexivity|].
  cbn [lower list_ascii_of_string forallb]. intros [Hc Hs]%andb_prop.
  now rewrite (ascii_lower_is_ascii c Hc), (IH Hs).
Qed.

Lemma remove_char_ascii_text (c : ascii) (s : string) :
  ascii_text s = true -> ascii_text (remove_char c s) = true.
Proof.
  unfold ascii_text. induction s as [|d s IH]; [reflexivity|].
  cbn [remove_char list_ascii_of_string forallb]. intros [Hd Hs]%andb_prop.
  destruct (Ascii.eqb c d); [exact (IH Hs)|].
  cbn [list_ascii_of_string forallb]. now rewrite Hd, (IH Hs).
Qed.

Lemma get_in_written_or_default (p : list string) (cfg d v : json) :
  p <> [] -> py_get_in cfg p d = Return v -> lookup_path p cfg = Some v \/ v = d.
Proof.
  intros Hp Hg. destruct (lookup_path p cfg) as [v'|] eqn:El.
  - left. rewrite (get_in_present p cfg d v' Hp El) in Hg. now injection Hg as ->.
  - right. exact (get_in_absent p cfg d v Hp El Hg).
Qed.

(** X8.  For a configuration whose key colour and fit mode, when written,
    are ASCII text: the resolved key colour and fit mode are ASCII text,
    the key colour holds no '#' and is its own lower-case form, and the fit
    mode is its own lower-case form.  Resolving normalises, and normalising
    again changes nothing. *)
Theorem resolved_values_are_normalised rt (cfg : json) (r : resolved) :
  resolve rt cfg = Return r ->
  (forall s, lookup_path ["chroma"; "hex"] cfg = Some (JStr s) -> ascii_text s = true) ->
  (forall s, lookup_path ["fit"] cfg = Some (JStr s) -> ascii_text s = true) ->
  ascii_text (chroma_hex r) = true /\
  ascii_text (fit r) = true /\
  existsb (Ascii.eqb "#") (list_ascii_of_string (chroma_hex r)) = false /\
  remove_char "#" (lower (chroma_hex r)) = chroma_hex r /\
  lower (fit r) = fit r.
Proof.
  intros H Ahex Afit.
  destruct (resolve_inv _ _ _ H) as (_ & _ & _ & _ & Hhex & _ & _ & Hfit & _).
  unfold mbind, outcome_bind, fmap, outcome_fmap in Hhex, Hfit.
  destruct (py_get_in cfg ["chroma"; "hex"] (JStr "3ec954")) as [vh|] eqn:Ghex;
    cbn beta iota in Hhex; [|discriminate Hhex].
  destruct vh as [| | | |sh| |]; cbn [py_lower] in Hhex; try discriminate Hhex.
  injection Hhex as <-.
  destruct (py_get_in cfg ["fit"] (JStr "cover")) as [vf|] eqn:Gfit;
    cbn beta iota in Hfit; [|discriminate Hfit].
  destruct vf as [| | | |sf| |]; cbn [py_lower] in Hfit; try discriminate Hfit.
  injection Hfit as <-.
  assert (Hsh : ascii_text sh = true).
  { destruct (get_in_written_or_default ["chroma"; "hex"] cfg (JStr "3ec954") (JStr sh)
                ltac:(discriminate) Ghex) as [Hw|Hd].
    - exact (Ahex sh Hw).
    - injection Hd as ->. reflexivity. }
  assert (Hsf : ascii_text sf = true).
  { destruct (get_in_written_or_default ["fit"] cfg (JStr "cover") (JStr sf)
                ltac:(discriminate) Gfit) as [Hw|Hd].
    - exact (Afit sf Hw).
    - injection Hd as ->. reflexivity. }
  split; [now apply remove_char_ascii_text, lower_ascii_text|].
  split; [now apply lower_ascii_text|].
  split; [apply remove_char_gone|].
  split; [|apply lower_idem].
  now rewrite lower_remove_hash, lower_idem, remove_char_idem.
Qed.

Lemma lookup_single k kv v :
  lookup_path [k] (JObj kv) = Some v -> dict_lookup k kv = Some v.
Proof.
  cbn [lookup_path]. destruct (dict_lookup k kv); [|discriminate].
  cbn [mbind option_bind lookup_path]. congruence.
Qed.

Ltac null_field H A :=
  unfold mbind, outcome_bind, fmap, outcome_fmap in H;
  match type of H with
  | context [py_get_in ?c ?p ?d] =>
      rewrite (get_in_present p c d _ ltac:(discriminate) A) in H
  | context [py_item_in ?c ?p] =>
      rewrite (item_in_present p c _ A) in H
  end;
  cbn [py_int py_float py_lower py_str] in H; discriminate H.

Ltac null_object H A :=
  apply lookup_single in A;
  unfold mbind, outcome_bind, fmap, outcome_fmap in H;
  first [ rewrite py_get_in_step, (py_get_found _ _ _ _ A) in H
        | cbn [py_item_in] in H; rewrite (py_item_found _ _ _ A) in H ];
  cbn in H; discriminate H.

(** X9.  An explicit JSON null is not an absent field: a configuration
    that resolves has no null at placeholder, chroma, fit, output,
    chroma.hex, nor at any numeric field; only a null preset is accepted,
    and it resolves to the text None. *)
Theorem resolve_rejects_null rt (cfg : json) (r : resolved) :
  resolve rt cfg = Return r ->
  Forall (fun path => lookup_path path cfg <> Some JNull)
    [["placeholder"]; ["placeholder"; "x"]; ["placeholder"; "y"];
     ["placeholder"; "w"]; ["placeholder"; "h"];
     ["chroma"]; ["chroma"; "hex"]; ["chroma"; "similarity"]; ["chroma"; "blend"];
     ["fit"]; ["output"]; ["output"; "fps"]; ["output"; "crf"]] /\
  (lookup_path ["output"; "preset"] cfg = Some JNull -> preset r = "None").
Proof.
  intros H. destruct (resolve_dict _ _ _ H) as [kv ->].
  destruct (resolve_inv _ _ _ H)
    as (Hx & Hy & Hw & Hh & Hhex & Hsim & Hbl & Hfit & Hfps & Hcrf & Hpre).
  split.
  - repeat constructor; intros A.
    + null_object Hx A.
    + null_field Hx A.
    + null_field Hy A.
    + null_field Hw A.
    + null_field Hh A.
    + null_object Hhex A.
    + null_field Hhex A.
    + null_field Hsim A.
    + null_field Hbl A.
    + null_field Hfit A.
    + null_object Hfps A.
    + null_field Hfps A.
    + null_field Hcrf A.
  - intros A. unfold fmap, outcome_fmap in Hpre.
    rewrite (get_in_present ["output"; "preset"] (JObj kv) _ _ ltac:(discriminate) A)
      in Hpre.
    now injection Hpre as <-.
Qed.

(** X10.  When the probe exits with status 0 and reports a stream, the
    main render and both generators read the same canvas from it (or fail
    with the same exception on a malformed entry): the clips are generated
    at the size the main render uses. *)
Theorem probe_agreement rt wd (path : string) (st : state)
    (out : string) (data streams : json) :
  exec_argv wd (ffprobe_cmd path) (fs st) = Some (0, out) ->
  json_loads rt out = Some data ->
  py_get data "streams" (JArr []) = Return streams ->
  truthy streams = true ->
  intro_generator.get_video_dimensions rt wd path st = ffprobe_size rt wd path st /\
  outro_generator.get_video_dimensions rt wd path st = ffprobe_size rt wd path st /\
  fst (ffprobe_size rt wd path st) = probed st path.
Proof.
  intros Hexec Hj Hs Ht.
  unfold ffprobe_size, intro_generator.get_video_dimensions,
    outro_generator.get_video_dimensions, check_output, subprocess_run_check,
    subprocess_run, loads, lift, raise, probed.
  unfold mbind, M_bind, mret, M_ret. rewrite Hexec.
  cbn -[py_get truthy first_item py_item py_int outcome_bind].
  rewrite Hj. cbn -[py_get truthy first_item py_item py_int outcome_bind].
  rewrite Hs, Ht. cbn -[py_get truthy first_item py_item py_int outcome_bind].
  repeat case_outcome; repeat split; reflexivity.
Qed.

(** X11.  Without a usable template video (none given, an empty name, or a
    file that is not on disk) the generators take the canvas 1080x1920
    without launching the probe. *)
Theorem generators_default_canvas rt wd (template_video : option string) (st : state) :
  template_video = None \/ template_video = Some EmptyString \/
  (exists tv, template_video = Some tv /\ fs st !! Path rt tv = None) ->
  intro_generator.canvas_for rt wd template_video st = (st, Return (1080, 1920)) /\
  outro_generator.canvas_for rt wd template_video st = (st, Return (1080, 1920)).
Proof.
  unfold intro_generator.canvas_for, outro_generator.canvas_for.
  intros [-> | [-> | (tv & -> & Hm)]]; [split; reflexivity | split; reflexivity |].
  destruct (truthy (JStr tv)); [|split; reflexivity].
  rewrite !bind_run. unfold path_exists. rewrite Hm.
  rewrite bool_decide_eq_false_2 by (intros [? [=]]). split; reflexivity.
Qed.

Lemma first_font_spec rt (l : list string) (st : state) :
  exists o,
    intro_generator.first_font rt l st = (st, Return o) /\
    match o with
    | Some f =>
        exists l1 l2, l = l1 ++ f :: l2 /\ is_Some (fs st !! Path rt f) /\
                      Forall (fun g => fs st !! Path rt g = None) l1
    | None => Forall (fun g => fs st !! Path rt g = None) l
    end.
Proof.
  induction l as [|f l IH].
  - exists None. split; [reflexivity | constructor].
  - cbn [intro_generator.first_font]. rewrite bind_run. unfold path_exists at 1.
    destruct (fs st !! Path rt f) as [txt|] eqn:E.
    + rewrite bool_decide_eq_true_2 by eauto.
      exists (Some f). split; [reflexivity|]. exists [], l.
      split; [reflexivity|]. split; [rewrite E; eauto | constructor].
    + rewrite bool_decide_eq_false_2 by (intros [? [=]]).
      destruct IH as (o & -> & Ho). exists o. split; [reflexivity|].
      destruct o as [g|].
      * destruct Ho as (l1 & l2 & -> & Hg & Hl1).
        exists (f :: l1), l2. split; [reflexivity|]. split; [exact Hg|].
        now constructor.
      * now constructor.
Qed.

(** X12.  [get_font_path] never fails and changes nothing; it returns the
    first font of the platform's list that is on disk, [None] when none is,
    and [None] on any platform other than Darwin, Linux and Windows. *)
Theorem get_font_path_first_existing rt wd (st : state) :
  exists o,
    intro_generator.get_font_path rt wd st = (st, Return o) /\
    match o with
    | Some f =>
        exists l1 l2,
          intro_generator.font_paths (platform_system wd) = l1 ++ f :: l2 /\
          is_Some (fs st !! Path rt f) /\
          Forall (fun g => fs st !! Path rt g = None) l1
    | None =>
        Forall (fun g => fs st !! Path rt g = None)
          (intro_generator.font_paths (platform_system wd))
    end /\
    (platform_system wd ∉ ["Darwin"; "Linux"; "Windows"] -> o = None).
Proof.
  unfold intro_generator.get_font_path.
  destruct (first_font_spec rt (intro_generator.font_paths (platform_system wd)) st)
    as (o & E & Ho).
  exists o. split; [exact E|]. split; [exact Ho|].
  intros Hp.
  assert (Hl : intro_generator.font_paths (platform_system wd) = []).
  { unfold intro_generator.font_paths.
    destruct (String.eqb_spec (platform_system wd) "Darwin") as [Heq|_];
      [exfalso; apply Hp; rewrite Heq; set_solver|].
    destruct (String.eqb_spec (platform_system wd) "Linux") as [Heq|_];
      [exfalso; apply Hp; rewrite Heq; set_solver|].
    destruct (String.eqb_spec (platform_system wd) "Windows") as [Heq|_];
      [exfalso; apply Hp; rewrite Heq; set_solver|].
    reflexivity. }
  rewrite Hl in Ho. destruct o as [f|]; [|reflexivity].
  destruct Ho as ([|? ?] & ? & [=] & _).
Qed.

Lemma check_ffmpeg_eq (wd : world) (st : state) :
  check_ffmpeg wd st
  = (launch st [Argv ["ffmpeg"; "-version"]],
     Return (tool_ok wd ["ffmpeg"; "-version"] (fs st))).
Proof.
  unfold check_ffmpeg, try_except_all, subprocess_run_check, subprocess_run, tool_ok,
    launch, raise.
  unfold mbind, M_bind, mret, M_ret. run_cbn.
  destruct (exec_argv wd ["ffmpeg"; "-version"] (fs st)) as [[rc o]|]; run_cbn;
    [|reflexivity].
  destruct (rc =? 0); reflexivity.
Qed.

(** X13.  [check_ffmpeg] never raises and tests ffmpeg only.  Whenever
    [ensure_ffmpeg] passes, so does [check_ffmpeg]; but with ffmpeg present
    and ffprobe missing [check_ffmpeg] answers True while every call of
    render [main] stops with the tools-not-found exit. *)
Theorem check_ffmpeg_is_weaker_than_ensure_ffmpeg rt wd (st : state) :
  check_ffmpeg wd st
  = (launch st [Argv ["ffmpeg"; "-version"]],
     Return (tool_ok wd ["ffmpeg"; "-version"] (fs st))) /\
  (snd (ensure_ffmpeg wd st) = Return () -> snd (check_ffmpeg wd st) = Return true) /\
  (tool_ok wd ["ffmpeg"; "-version"] (fs st) = true ->
   tool_ok wd ["ffprobe"; "-version"] (fs st) = false ->
   snd (check_ffmpeg wd st) = Return true /\
   forall template_folder image_path out_path,
     main rt wd template_folder image_path out_path st
     = (launch st version_checks, Raise ffmpeg_missing_exit)).
Proof.
  split; [apply check_ffmpeg_eq|]. rewrite check_ffmpeg_eq, ensure_ffmpeg_eq. split.
  - destruct (tool_ok wd ["ffmpeg"; "-version"] (fs st)); [reflexivity|].
    cbn [snd]. discriminate.
  - intros H1 H2. cbn [snd]. rewrite H1. split; [reflexivity|].
    intros tf ip op. unfold main. rewrite bind_run, ensure_ffmpeg_eq, H1, H2. reflexivity.
Qed.

Section Generators.
Variable rt : runtime.
Variable wd : world.

Lemma offline_bind {A B : Type} (m : M A) (f : A -> M B) :
  offline m -> (forall a, offline (f a)) -> offline (m ≫= f).
Proof.
  intros Hm Hf st. rewrite bind_run. specialize (Hm st).
  destruct (m st) as [st1 [a|e]]; cbn [fst] in *; [|exact Hm].
  now rewrite Hf.
Qed.

Lemma offline_const {A : Type} (o : outcome A) : offline (fun st => (st, o)).
Proof. intros st. reflexivity. Qed.

Lemma offline_print (s : string) : offline (print s).
Proof. intros st. reflexivity. Qed.

Lemma offline_path_exists (p : string) : offline (path_exists p).
Proof. intros st. reflexivity. Qed.

Lemma offline_unlink (p : string) : offline (unlink p).
Proof. intros st. reflexivity. Qed.

Lemma offline_if {A : Type} (b : bool) (m1 m2 : M A) :
  offline m1 -> offline m2 -> offline (if b then m1 else m2).
Proof. now destruct b. Qed.

Lemma offline_first_font (l : list string) : offline (intro_generator.first_font rt l).
Proof.
  induction l as [|f l IH]; [apply offline_const|].
  cbn [intro_generator.first_font].
  apply offline_bind; [apply offline_path_exists|]. intros b.
  apply offline_if; [apply offline_const | exact IH].
Qed.

Lemma offline_first_existing (l : list string) (found : string -> M unit) :
  (forall p, offline (found p)) -> offline (first_existing l found).
Proof.
  intros Hf. induction l as [|p l IH]; [apply offline_const|].
  cbn [first_existing].
  apply offline_bind; [apply offline_path_exists|]. intros b.
  apply offline_if; [|exact IH].
  apply offline_bind; [apply Hf|]. intros _. apply offline_const.
Qed.

Lemma offline_draw (frames : animation) :
  offline (fun st => match draw_frames wd frames (fs st) with
                     | None => (st, Return ())
                     | Some e => (st, Raise e)
                     end).
Proof. intros st. now destruct (draw_frames wd frames (fs st)). Qed.

Lemma offline_write (frames : animation) (p : string) :
  offline (fun st => match write_videofile wd frames p (fs st) with
                     | Return fs' =>
                         ({| fs := fs'; launched := launched st; printed := printed st |},
                          Return ())
                     | Raise e => (st, Raise e)
                     end).
Proof. intros st. now destruct (write_videofile wd frames p (fs st)). Qed.

Lemma mux_outcome_bind {A : Type} (c temp out : string) (m : M A) (f : A -> M string) :
  offline m ->
  (forall a st, mux_outcome wd c temp out st (fst (f a st)) (snd (f a st))) ->
  forall st, mux_outcome wd c temp out st (fst ((m ≫= f) st)) (snd ((m ≫= f) st)).
Proof.
  intros Hm Hf st. rewrite bind_run. specialize (Hm st).
  destruct (m st) as [st1 [a|e]]; cbn [fst snd] in *.
  - destruct (Hf a st1) as [[Hl He] | (files & Hl & Hr)].
    + left. split; [congruence | exact He].
    + right. exists files. split; [congruence | exact Hr].
  - left. split; [exact Hm | eauto].
Qed.

Lemma mux_tail (c temp msg out : string) (st : state) :
  mux_outcome wd c temp out st
    (fst ((p ← subprocess_run_shell wd c;
           if negb (fst p =? 0) then raise (CalledProcessError (fst p))
           else _ ← unlink temp; _ ← print msg; mret out) st))
    (snd ((p ← subprocess_run_shell wd c;
           if negb (fst p =? 0) then raise (CalledProcessError (fst p))
           else _ ← unlink temp; _ ← print msg; mret out) st)).
Proof.
  right. exists (fs st). rewrite bind_run. unfold subprocess_run_shell.
  destruct (exec_shell wd c (fs st)) as [[rc err] fs']. cbn [fst snd].
  destruct (rc =? 0); cbn [negb].
  - rewrite !bind_run. cbn. repeat split; reflexivity.
  - cbn. repeat split; reflexivity.
Qed.

Lemma get_video_dimensions_state (path : string) (st : state) :
  fst (intro_generator.get_video_dimensions rt wd path st) = probed st path /\
  fst (outro_generator.get_video_dimensions rt wd path st) = probed st path.
Proof.
  unfold intro_generator.get_video_dimensions, outro_generator.get_video_dimensions.
  rewrite !bind_stateless_state.
  - split; apply subprocess_run_state.
  - intros r.
    apply stateless_bind; [apply stateless_loads|]. intros data.
    apply stateless_bind; [apply stateless_const|]. intros streams.
    apply stateless_if; [apply stateless_const|].
    apply stateless_bind; [apply stateless_const|]. intros vw.
    apply stateless_bind; [apply stateless_const|]. intros vh.
    apply stateless_const.
Qed.

Lemma canvas_for_state (template_video : option string) (st : state) :
  (exists l, canvas_probe l /\
             fst (intro_generator.canvas_for rt wd template_video st) = launch st l) /\
  (exists l, canvas_probe l /\
             fst (outro_generator.canvas_for rt wd template_video st) = launch st l).
Proof.
  assert (H0 : launch st [] = st).
  { destruct st. unfold launch. cbn. now rewrite app_nil_r. }
  unfold intro_generator.canvas_for, outro_generator.canvas_for.
  destruct template_video as [tv|].
  2:{ split; exists []; (split; [now left | now rewrite H0]). }
  destruct (truthy (JStr tv)).
  2:{ split; exists []; (split; [now left | now rewrite H0]). }
  rewrite !bind_run. unfold path_exists.
  destruct (bool_decide (is_Some (fs st !! Path rt tv))).
  - destruct (get_video_dimensions_state tv st) as [Hi Ho].
    split; exists [Argv (ffprobe_cmd tv)]; (split; [right; eauto | assumption]).
  - split; exists []; (split; [now left | now rewrite H0]).
Qed.

Lemma create_intro_video_runs (customer_name output_path : string) (duration : Z)
    (template_video logo_path : option string) (st : state) :
  exists l,
    canvas_probe l /\
    mux_outcome wd
      (mux_cmd rt (intro_temp rt wd output_path) duration (Path rt output_path))
      (Path rt (intro_temp rt wd output_path)) (Path rt output_path)
      (launch st l)
      (fst (intro_generator.create_intro_video rt wd customer_name output_path
              duration template_video logo_path st))
      (snd (intro_generator.create_intro_video rt wd customer_name output_path
              duration template_video logo_path st)).
Proof.
  destruct (canvas_for_state template_video st) as [(l & Hl & Hst) _].
  exists l. split; [exact Hl|].
  unfold intro_generator.create_intro_video. cbv zeta. rewrite bind_run.
  destruct (intro_generator.canvas_for rt wd template_video st) as [st1 [canvas|e]];
    cbn [fst] in Hst; subst st1.
  2:{ left. split; [reflexivity | eauto]. }
  apply mux_outcome_bind; [apply offline_print|]. intros _.
  apply mux_outcome_bind; [apply offline_first_font|]. intros font_path.
  apply mux_outcome_bind.
  { apply offline_if; [apply offline_const|].
    apply offline_bind; [|intros ?; apply offline_const].
    apply offline_first_existing. intros p. apply offline_print. }
  intros logo.
  apply mux_outcome_bind; [apply offline_print|]. intros _.
  apply mux_outcome_bind; [apply offline_draw|]. intros _.
  apply mux_outcome_bind; [apply offline_print|]. intros _.
  apply mux_outcome_bind; [apply offline_write|]. intros _.
  intros s. apply mux_tail.
Qed.

Lemma create_outro_video_runs (output_path : string) (duration : Z)
    (template_video logo_path : option string) (st : state) :
  exists l,
    canvas_probe l /\
    mux_outcome wd
      (mux_cmd rt (outro_temp rt wd output_path) duration (Path rt output_path))
      (Path rt (outro_temp rt wd output_path)) (Path rt output_path)
      (launch st l)
      (fst (outro_generator.create_outro_video rt wd output_path
              duration template_video logo_path st))
      (snd (outro_generator.create_outro_video rt wd output_path
              duration template_video logo_path st)).
Proof.
  destruct (canvas_for_state template_video st) as [_ (l & Hl & Hst)].
  exists l. split; [exact Hl|].
  unfold outro_generator.create_outro_video. cbv zeta. rewrite bind_run.
  destruct (outro_generator.canvas_for rt wd template_video st) as [st1 [canvas|e]];
    cbn [fst] in Hst; subst st1.
  2:{ left. split; [reflexivity | eauto]. }
  apply mux_outcome_bind; [apply offline_print|]. intros _.
  apply mux_outcome_bind.
  { apply offline_if; [apply offline_const|].
    apply offline_bind; [|intros ?; apply offline_const].
    apply offline_first_existing. intros p. apply offline_print. }
  intros logo.
  apply mux_outcome_bind; [apply offline_print|]. intros _.
  apply mux_outcome_bind; [apply offline_draw|]. intros _.
  apply mux_outcome_bind; [apply offline_print|]. intros _.
  apply mux_outcome_bind; [apply offline_write|]. intros _.
  intros s. apply mux_tail.
Qed.
End Generators.

Section Pipeline.
Variable rt : runtime.
Variable wd : world.

Lemma mux_outcome_cases (c temp out : string) (st st' : state) (o : outcome string) :
  mux_outcome wd c temp out st st' o ->
  match o with
  | Return p =>
      p = out /\ launched st' = launched st ++ [Shell c] /\ fs st' !! temp = None
  | Raise e =>
      launched st' = launched st \/
      (launched st' = launched st ++ [Shell c] /\
       exists rc, rc <> 0 /\ e = CalledProcessError rc)
  end.
Proof.
  intros [[Hl [e ->]] | (files & Hl & H)]; [now left|].
  destruct (fst (fst (exec_shell wd c files)) =? 0) eqn:Hrc.
  - destruct H as [-> Hfs]. rewrite Hfs.
    repeat split; [exact Hl | apply lookup_delete_eq].
  - destruct H as [-> _]. right. split; [exact Hl|].
    eexists. split; [|reflexivity]. now apply Z.eqb_neq.
Qed.

(** X14.  [create_intro_video] launches, in this order, at most one probe of
    the template video and at most one shell command, the mux that adds the
    silent audio track to the temporary clip.  When it returns, the value
    is the output path, the mux has run and the temporary clip is gone.
    When it fails, either the mux was not launched, or it was launched,
    ended with a non-zero status and [CalledProcessError] carries that
    status. *)
Theorem create_intro_video_lifecycle (customer_name output_path : string)
    (duration : Z) (template_video logo_path : option string) (st : state) :
  exists l,
    canvas_probe l /\
    match snd (intro_generator.create_intro_video rt wd customer_name output_path
                 duration template_video logo_path st) with
    | Return p =>
        p = Path rt output_path /\
        launched (fst (intro_generator.create_intro_video rt wd customer_name
                         output_path duration template_video logo_path st))
        = launched st ++ l
          ++ [Shell (mux_cmd rt (intro_temp rt wd output_path) duration
                       (Path rt output_path))] /\
        fs (fst (intro_generator.create_intro_video rt wd customer_name
                   output_path duration template_video logo_path st))
          !! Path rt (intro_temp rt wd output_path) = None
    | Raise e =>
        launched (fst (intro_generator.create_intro_video rt wd customer_name
                         output_path duration template_video logo_path st))
        = launched st ++ l \/
        (launched (fst (intro_generator.create_intro_video rt wd customer_name
                          output_path duration template_video logo_path st))
         = launched st ++ l
           ++ [Shell (mux_cmd rt (intro_temp rt wd output_path) duration
                        (Path rt output_path))] /\
         exists rc, rc <> 0 /\ e = CalledProcessError rc)
    end.
Proof.
  destruct (create_intro_video_runs rt wd customer_name output_path duration
              template_video logo_path st) as (l & Hl & Hm).
  exists l. split; [exact Hl|].
  apply mux_outcome_cases in Hm. cbn [launch launched] in Hm.
  destruct (snd (intro_generator.create_intro_video rt wd customer_name output_path
                   duration template_video logo_path st)) as [p|e].
  - destruct Hm as (-> & Hlaunched & Hgone).
    rewrite <- app_assoc in Hlaunched. auto.
  - destruct Hm as [Hlaunched | [Hlaunched Hrc]]; [now left|].
    right. rewrite <- app_assoc in Hlaunched. auto.
Qed.

(** X15.  [create_outro_video] has the same life cycle as the intro
    generator, with its own temporary clip: an optional probe of the
    template video, then at most the one mux command.  When it returns, the
    value is the output path, the mux has run and the temporary clip is
    gone.  When it fails, either the mux was not launched, or it ended with
    a non-zero status and [CalledProcessError] carries that status. *)
Theorem create_outro_video_lifecycle (output_path : string) (duration : Z)
    (template_video logo_path : option string) (st : state) :
  exists l,
    canvas_probe l /\
    match snd (outro_generator.create_outro_video rt wd output_path
                 duration template_video logo_path st) with
    | Return p =>
        p = Path rt output_path /\
        launched (fst (outro_generator.create_outro_video rt wd output_path
                         duration template_video logo_path st))
        = launched st ++ l
          ++ [Shell (mux_cmd rt (outro_temp rt wd output_path) duration
                       (Path rt output_path))] /\
        fs (fst (outro_generator.create_outro_video rt wd output_path
                   duration template_video logo_path st))
          !! Path rt (outro_temp rt wd output_path) = None
    | Raise e =>
        launched (fst (outro_generator.create_outro_video rt wd output_path
                         duration template_video logo_path st))
        = launched st ++ l \/
        (launched (fst (outro_generator.create_outro_video rt wd output_path
                          duration template_video logo_path st))
         = launched st ++ l
           ++ [Shell (mux_cmd rt (outro_temp rt wd output_path) duration
                        (Path rt output_path))] /\
         exists rc, rc <> 0 /\ e = CalledProcessError rc)
    end.
Proof.
  destruct (create_outro_video_runs rt wd output_path duration
              template_video logo_path st) as (l & Hl & Hm).
  exists l. split; [exact Hl|].
  apply mux_outcome_cases in Hm. cbn [launch launched] in Hm.
  destruct (snd (outro_generator.create_outro_video rt wd output_path
                   duration template_video logo_path st)) as [p|e].
  - destruct Hm as (-> & Hlaunched & Hgone).
    rewrite <- app_assoc in Hlaunched. auto.
  - destruct Hm as [Hlaunched | [Hlaunched Hrc]]; [now left|].
    right. rewrite <- app_assoc in Hlaunched. auto.
Qed.

Lemma mux_returned (c temp out : string) (st st' : state) (p : string) :
  mux_outcome wd c temp out st st' (Return p) ->
  p = out /\ launched st' = launched st ++ [Shell c] /\ fs st' !! temp = None.
Proof.
  intros [[_ [e [=]]] | (files & Hl & H)].
  destruct (fst (fst (exec_shell wd c files)) =? 0).
  - destruct H as [[= ->] Hfs]. rewrite Hfs.
    repeat split; [exact Hl | apply lookup_delete_eq].
  - destruct H as [[=] _].
Qed.

Lemma concatenate_launched (a b c o : string) (st : state) :
  launched (fst (outro_generator.concatenate_videos_with_outro rt wd a b c o st))
  = launched st ++ [Shell (concat_cmd rt o)].
Proof.
  unfold outro_generator.concatenate_videos_with_outro.
  cbv zeta. rewrite !bind_run. unfold write_text at 1. rewrite !bind_run.
  unfold print at 1. rewrite bind_run. unfold subprocess_run_shell at 1.
  cbn [fs launched printed].
  destruct (exec_shell wd _ _) as [[rc err] fs'].
  rewrite bind_run. unfold unlink at 1. cbn [fs launched printed fst snd].
  destruct (rc =? 0); cbn [negb]; unfold raise, print; rewrite ?bind_run;
    cbn [fst launched mret M_ret]; reflexivity.
Qed.

(** X16.  When [render_video] returns, the commands it has launched are, in
    this order: an optional probe and the intro mux, the two version checks
    of [render.main], the probe of the template video and the encode of the
    main clip, an optional probe and the outro mux, and the concatenation.
    The encode command is the one planned from the resolved configuration
    for the customer image and the main clip path. *)
Theorem render_video_success_trace
    (template_folder image_path output_name customer_name : string)
    (st st' : state) (p : string) :
  render_video rt wd template_folder image_path output_name customer_name st
  = (st', Return p) ->
  exists l1 l2 cfg r bp cw ch tv,
    canvas_probe l1 /\ canvas_probe l2 /\
    resolve rt cfg = Return r /\
    launched st'
    = launched st
      ++ l1
      ++ [Shell (mux_cmd rt (intro_temp rt wd (intro_clip rt wd)) 4
                   (Path rt (intro_clip rt wd)))]
      ++ version_checks
      ++ [Argv (ffprobe_cmd tv);
          Shell (cmd rt r bp cw ch tv (Path rt image_path)
                   (Path rt (main_clip rt wd)))]
      ++ l2
      ++ [Shell (mux_cmd rt (outro_temp rt wd (outro_clip rt wd)) 3
                   (Path rt (outro_clip rt wd)));
          Shell (concat_cmd rt (final_output rt wd output_name))].
Proof.
  intros H.
  unfold render_video, try_except in H. cbv zeta in H.
  match type of H with
  | match ?body with _ => _ end = _ => destruct body as [st0 [p0|e]] eqn:E
  end.
  2:{ destruct (is_Exception e); discriminate H. }
  injection H as -> ->.
  apply bind_return_inv in E as (tv1 & s1 & P1 & E).
  apply bind_return_inv in E as (pi & s2 & Hintro & E).
  apply bind_return_inv in E as (? & s3 & Hmain & E).
  apply bind_return_inv in E as (tv2 & s4 & P2 & E).
  apply bind_return_inv in E as (po & s5 & Houtro & E).
  apply bind_return_inv in E as (? & s6 & Hcat & E).
  apply bind_return_inv in E as (? & s7 & U1 & E).
  apply bind_return_inv in E as (? & s8 & U2 & E).
  apply bind_return_inv in E as (? & s9 & U3 & E).
  apply bind_return_inv in E as (? & s10 & U4 & E).
  injection E as <- <-.
  injection P1 as <- _. injection P2 as <- _.
  (* the intro *)
  match type of Hintro with
  | intro_generator.create_intro_video _ _ ?n ?o ?d ?t ?g _ = _ =>
      destruct (create_intro_video_runs rt wd n o d t g st) as (l1 & Hl1 & M1)
  end.
  rewrite Hintro in M1. cbn [fst snd] in M1.
  apply mux_returned in M1 as (_ & L1 & _).
  (* the main clip *)
  destruct (main_runs rt wd
              (joinpath rt (Path rt "templates") template_folder)
              image_path (main_clip rt wd) s2) as (s3' & o3 & Em & Hm).
  rewrite Hmain in Em. injection Em as <- <-.
  destruct Hm as [[_ [=]] | [(_ & _ & e & [=]) | [(tv & _ & _ & e & [=]) | Hm]]].
  destruct Hm as (txt & cfg & tv & bp & st1 & _ & _ & _ & _ & Hb & Henc).
  destruct (resolve_border_runs rt (Path rt (joinpath rt (Path rt "templates") template_folder))
              cfg (launch s2 version_checks)) as (st1' & ob & Hb' & _ & Lb & _).
  rewrite Hb in Hb'. injection Hb' as <- <-.
  destruct Henc as (r & cw & ch & Hr & _ & _ & Hs3 & _).
  cbv zeta in Hs3.
  assert (L3 : launched s3 = launched st1
                 ++ [Argv (ffprobe_cmd tv);
                     Shell (cmd rt r bp cw ch tv (Path rt image_path)
                              (Path rt (main_clip rt wd)))])
    by (rewrite Hs3; reflexivity).
  (* the outro *)
  match type of Houtro with
  | outro_generator.create_outro_video _ _ ?o ?d ?t ?g _ = _ =>
      destruct (create_outro_video_runs rt wd o d t g s3) as (l2 & Hl2 & M2)
  end.
  rewrite Houtro in M2. cbn [fst snd] in M2.
  apply mux_returned in M2 as (_ & L5 & _).
  (* the concatenation and the clean-up *)
  pose proof (concatenate_launched (intro_clip rt wd) (main_clip rt wd) (outro_clip rt wd)
                (final_output rt wd output_name) s5) as L6.
  rewrite Hcat in L6. cbn [fst] in L6.
  injection U1 as <- _. injection U2 as <- _. injection U3 as <- _. injection U4 as <-.
  exists l1, l2, cfg, r, bp, cw, ch, tv.
  split; [exact Hl1|]. split; [exact Hl2|]. split; [exact Hr|].
  cbn [launched]. rewrite L6, L5. cbn [launch launched]. rewrite L3, Lb.
  cbn [launch launched]. rewrite L1. cbn [launch launched].
  rewrite <- !app_assoc. reflexivity.
Qed.

(** X17.  [render_video] wraps every failure that is a Python [Exception]
    into [Exception "Rendering failed: ..."] with the text of the original;
    the exits of [render.main] ([SystemExit], raised for a missing tool,
    template, image or a failed encode) are not instances of [Exception]
    and leave [render_video] unwrapped. *)
Theorem render_video_failures
    (template_folder image_path output_name customer_name : string)
    (st st' : state) (e : exn) :
  render_video rt wd template_folder image_path output_name customer_name st
  = (st', Raise e) ->
  (exists e0, is_Exception e0 = true /\
              e = Exception ("Rendering failed: " +:+ exn_str wd e0)) \/
  ((exists msg, e = SystemExit msg) \/ (exists code, e = SystemExitCode code)).
Proof.
  unfold render_video, try_except. cbv zeta.
  match goal with
  | |- match ?body with _ => _ end = _ -> _ => destruct body as [st0 [p0|e0]]
  end.
  - discriminate.
  - destruct (is_Exception e0) eqn:Ee.
    + unfold raise. intros [= _ <-]. left. exists e0. split; [exact Ee | reflexivity].
    + intros [= _ <-]. right. destruct e0; try discriminate Ee; eauto.
Qed.
End Pipeline.

(** ** The further properties on the concrete template *)

Lemma main_returns_witness :
  snd (main demo_rt demo_wd "templates/t1" "photo.jpg" "out.mp4"
         (empty_state demo_files_with_photo)) = Return () /\
  last (printed (fst (main demo_rt demo_wd "templates/t1" "photo.jpg" "out.mp4"
                        (empty_state demo_files_with_photo))))
  = Some ("✅ Rendered: " +:+ Path demo_rt "out.mp4").
Proof.
  assert (H : main demo_rt demo_wd "templates/t1" "photo.jpg" "out.mp4"
                (empty_state demo_files_with_photo)
              = (fst (main demo_rt demo_wd "templates/t1" "photo.jpg" "out.mp4"
                        (empty_state demo_files_with_photo)), Return ()))
    by (vm_compute; reflexivity).
  split; [vm_compute; reflexivity|].
  pose proof (main_returns_after_successful_encode demo_rt demo_wd
                "templates/t1" "photo.jpg" "out.mp4" _ _ H)
    as (txt & cfg & tv & bp & r & cw & ch & _ & _ & _ & _ & _ & _ & _ & Hrest).
  cbv zeta in Hrest. destruct Hrest as (_ & _ & _ & Hlast). exact Hlast.
Defined.

Lemma main_missing_config_witness :
  fs (empty_state demo_files)
    !! joinpath demo_rt (Path demo_rt "templates/none") "template.json" = None /\
  main demo_rt demo_wd "templates/none" "photo.jpg" "out.mp4" (empty_state demo_files)
  = (launch (empty_state demo_files) version_checks,
     Raise (SystemExit ("❌ template.json not found in: "
                        +:+ Path demo_rt "templates/none"))).
Proof.
  split; [vm_compute; reflexivity|].
  exact (main_missing_config demo_rt demo_wd "templates/none" "photo.jpg" "out.mp4"
           (empty_state demo_files) eq_refl eq_refl ltac:(vm_compute; reflexivity)).
Defined.

Lemma main_missing_template_video_witness :
  fs (empty_state demo_files_no_footage) !! "templates/t1/template.mp4" = None /\
  main demo_rt demo_wd "templates/t1" "missing.jpg" "out.mp4"
    (empty_state demo_files_no_footage)
  = (launch (empty_state demo_files_no_footage) version_checks,
     Raise (SystemExit ("❌ template video not found: " +:+ "templates/t1/template.mp4"))).
Proof.
  split; [vm_compute; reflexivity|].
  exact (main_missing_template_video demo_rt demo_wd "templates/t1" "missing.jpg" "out.mp4"
           (empty_state demo_files_no_footage) "CFG"
           [("placeholder",
             JObj [("x", JInt 100); ("y", JInt 200); ("w", JInt 800); ("h", JInt 800)])]
           "templates/t1/template.mp4"
           eq_refl eq_refl ltac:(vm_compute; reflexivity) eq_refl eq_refl
           ltac:(intros v Hv; discriminate Hv)
           ltac:(vm_compute; reflexivity)).
Defined.

Lemma resolve_requires_placeholder_witness :
  resolve demo_rt (JObj []) = Raise (KeyError "placeholder") /\
  resolve demo_rt (JObj [("placeholder", JObj [("x", JInt 1); ("y", JInt 2)])])
  = Raise (KeyError "w").
Proof.
  split.
  - exact (proj1 (resolve_requires_placeholder demo_rt [] []) eq_refl).
  - exact (proj1 (proj2 (proj2 (proj2 (resolve_requires_placeholder demo_rt
             [("placeholder", JObj [("x", JInt 1); ("y", JInt 2)])]
             [("x", JInt 1); ("y", JInt 2)]) eq_refl) 1 eq_refl) 2 eq_refl) eq_refl).
Defined.

Lemma main_ignores_other_keys_witness :
  ("comment" ∉ ["template_video"; "border_png"; "placeholder"; "chroma"; "fit";
                "output"]) /\
  main_with demo_rt demo_wd "templates/t1" (JObj (dict_remove "comment" commented_kv))
    "photo.jpg" "out.mp4"
  = main_with demo_rt demo_wd "templates/t1" (JObj commented_kv) "photo.jpg" "out.mp4".
Proof.
  assert (H : "comment" ∉ ["template_video"; "border_png"; "placeholder"; "chroma";
                            "fit"; "output"])
    by (intros H; repeat (apply elem_of_cons in H as [H|H]; [discriminate H|]);
        inversion H).
  split; [exact H|].
  exact (main_ignores_other_keys demo_rt demo_wd "templates/t1" commented_kv "comment"
           "photo.jpg" "out.mp4" H).
Defined.

Lemma resolved_values_are_normalised_witness :
  resolve demo_rt full_cfg = Return full_request /\
  lookup_path ["chroma"; "hex"] full_cfg = Some (JStr "00FF00") /\
  ascii_text "00FF00" = true /\
  remove_char "#" (lower (chroma_hex full_request)) = chroma_hex full_request /\
  lower (fit full_request) = fit full_request.
Proof.
  split; [reflexivity|]. split; [reflexivity|]. split; [reflexivity|].
  exact (proj2 (proj2 (proj2
           (resolved_values_are_normalised demo_rt full_cfg full_request eq_refl
              ltac:(intros s [= <-]; reflexivity)
              ltac:(intros s [= <-]; reflexivity))))).
Defined.

Lemma resolve_rejects_null_witness :
  resolve demo_rt full_cfg = Return full_request /\
  (lookup_path ["output"; "preset"] full_cfg = Some JNull -> preset full_request = "None").
Proof.
  split; [reflexivity|].
  exact (proj2 (resolve_rejects_null demo_rt full_cfg full_request eq_refl)).
Defined.

Lemma probe_agreement_witness :
  exec_argv demo_wd (ffprobe_cmd "templates/t1/template.mp4") (fs (empty_state demo_files))
  = Some (0, "PROBE") /\
  intro_generator.get_video_dimensions demo_rt demo_wd "templates/t1/template.mp4"
    (empty_state demo_files)
  = ffprobe_size demo_rt demo_wd "templates/t1/template.mp4" (empty_state demo_files).
Proof.
  split; [reflexivity|].
  exact (proj1 (probe_agreement demo_rt demo_wd "templates/t1/template.mp4"
                  (empty_state demo_files) "PROBE" demo_probe
                  (JArr [JObj [("width", JInt 1080); ("height", JInt 1920)]])
                  eq_refl eq_refl eq_refl eq_refl)).
Defined.

Lemma generators_default_canvas_witness :
  fs (empty_state demo_files) !! Path demo_rt "templates/t9/template.mp4" = None /\
  intro_generator.canvas_for demo_rt demo_wd (Some "templates/t9/template.mp4")
    (empty_state demo_files)
  = (empty_state demo_files, Return (1080, 1920)).
Proof.
  assert (H : fs (empty_state demo_files) !! Path demo_rt "templates/t9/template.mp4" = None)
    by (vm_compute; reflexivity).
  split; [exact H|].
  exact (proj1 (generators_default_canvas demo_rt demo_wd
                  (Some "templates/t9/template.mp4") (empty_state demo_files)
                  (or_intror (or_intror
                     (ex_intro _ "templates/t9/template.mp4" (conj eq_refl H)))))).
Defined.

Lemma check_ffmpeg_witness :
  tool_ok no_ffprobe_wd ["ffprobe"; "-version"] (fs (empty_state demo_files_with_photo))
  = false /\
  snd (check_ffmpeg no_ffprobe_wd (empty_state demo_files_with_photo)) = Return true /\
  main demo_rt no_ffprobe_wd "templates/t1" "photo.jpg" "out.mp4"
    (empty_state demo_files_with_photo)
  = (launch (empty_state demo_files_with_photo) version_checks, Raise ffmpeg_missing_exit).
Proof.
  split; [reflexivity|].
  pose proof (proj2 (proj2 (check_ffmpeg_is_weaker_than_ensure_ffmpeg demo_rt no_ffprobe_wd
                              (empty_state demo_files_with_photo))) eq_refl eq_refl)
    as [Hc Hm].
  split; [exact Hc | exact (Hm "templates/t1" "photo.jpg" "out.mp4")].
Defined.

Lemma render_video_success_witness :
  snd (render_video demo_rt demo_wd "t1" "photo.jpg" "birthday" "Ann"
         (empty_state demo_files_with_photo))
  = Return "output/birthday_20240101_120000.mp4" /\
  exists l1 l2 tv c,
    launched (fst (render_video demo_rt demo_wd "t1" "photo.jpg" "birthday" "Ann"
                     (empty_state demo_files_with_photo)))
    = l1
      ++ [Shell (mux_cmd demo_rt (intro_temp demo_rt demo_wd (intro_clip demo_rt demo_wd)) 4
                   (Path demo_rt (intro_clip demo_rt demo_wd)))]
      ++ version_checks
      ++ [Argv (ffprobe_cmd tv); Shell c]
      ++ l2
      ++ [Shell (mux_cmd demo_rt (outro_temp demo_rt demo_wd (outro_clip demo_rt demo_wd)) 3
                   (Path demo_rt (outro_clip demo_rt demo_wd)));
          Shell (concat_cmd demo_rt (final_output demo_rt demo_wd "birthday"))].
Proof.
  assert (H : render_video demo_rt demo_wd "t1" "photo.jpg" "birthday" "Ann"
                (empty_state demo_files_with_photo)
              = (fst (render_video demo_rt demo_wd "t1" "photo.jpg" "birthday" "Ann"
                        (empty_state demo_files_with_photo)),
                 Return "output/birthday_20240101_120000.mp4"))
    by (vm_compute; reflexivity).
  split; [vm_compute; reflexivity|].
  pose proof (render_video_success_trace demo_rt demo_wd
                "t1" "photo.jpg" "birthday" "Ann" _ _ _ H)
    as (l1 & l2 & cfg & r & bp & cw & ch & tv & _ & _ & _ & Hl).
  exists l1, l2, tv,
    (cmd demo_rt r bp cw ch tv (Path demo_rt "photo.jpg")
       (Path demo_rt (main_clip demo_rt demo_wd))).
  exact Hl.
Defined.

Lemma render_video_failures_witness :
  snd (render_video demo_rt failing_concat_wd "t1" "photo.jpg" "birthday" "Ann"
         (empty_state demo_files_with_photo))
  = Raise (Exception "Rendering failed: error") /\
  ((exists e0, is_Exception e0 = true /\
               Exception "Rendering failed: error"
               = Exception ("Rendering failed: " +:+ exn_str failing_concat_wd e0)) \/
   ((exists msg, Exception "Rendering failed: error" = SystemExit msg) \/
    (exists code, Exception "Rendering failed: error" = SystemExitCode code))).
Proof.
  assert (H : render_video demo_rt failing_concat_wd "t1" "photo.jpg" "birthday" "Ann"
                (empty_state demo_files_with_photo)
              = (fst (render_video demo_rt failing_concat_wd "t1" "photo.jpg" "birthday" "Ann"
                        (empty_state demo_files_with_photo)),
                 Raise (Exception "Rendering failed: error")))
    by (vm_compute; reflexivity).
  split; [vm_compute; reflexivity|].
  exact (render_video_failures demo_rt failing_concat_wd
           "t1" "photo.jpg" "birthday" "Ann" _ _ _ H).
Defined.
